(** * stac-downloader: the partial-extent raster fetch loop of [main]

    A shallow embedding of the per-asset loop of
    [stac-downloader/stac-downloader.py] (lines 63-106) together with the
    library calls it makes, of the selection of the geometry and of the
    links before it (lines 43-61), and the properties of both.

    Conventions of the embedding:
    - Python [float] coordinates are rationals ([Q]); rounding of floating
      point arithmetic is not modelled.
    - the local filesystem is a finite map from paths to raster files;
    - the remote catalogue, the CRS database and the I/O failures are
      fields of a [World] that stays fixed during a run;
    - every library call of the loop leaves an [Event], so that the order
      and the number of calls can be stated. *)

From Stdlib Require Import ZArith QArith Qfield Qround Qminmax Lia Lqa Ascii.
From stdpp Require Import gmap strings list.

Local Open Scope string_scope.
Local Open Scope Z_scope.
Local Open Scope list_scope.

(** ** Data model *)

(** [rasterio.Affine(a, b, c, d, e, f)]: pixel (col, row) to projected
    (x, y) with x = a*col + b*row + c and y = d*col + e*row + f.  Indexing
    [t[0]], [t[1]], [t[2]], [t[3]], [t[4]], [t[5]] gives a, b, c, d, e, f. *)
Record Affine := mkAffine {
  af_a : Q; af_b : Q; af_c : Q;
  af_d : Q; af_e : Q; af_f : Q
}.

(** [rasterio.windows.Window(col_off, row_off, width, height)]. *)
Record Window := mkWindow {
  col_off : Z; row_off : Z; win_width : Z; win_height : Z
}.

(** A numpy 2-D array: its [shape] and its rows. *)
Record SampleBlock := mkBlock {
  sb_height : Z; sb_width : Z; sb_data : list (list Z)
}.

Definition shape (a : SampleBlock) : Z * Z := (sb_height a, sb_width a).

(** Values stored in a rasterio profile dictionary. *)
Inductive PVal :=
| VInt (z : Z)
| VStr (s : string)
| VAffine (t : Affine)
| VNone.

(** An opened dataset ([geo_fp]): the attributes the loop reads.  [ds_meta]
    holds the remaining profile keys (driver, dtype, nodata, count,
    compression and tiling options); [ds_band1] is [None] when reading the
    band raises. *)
Record Dataset := mkDataset {
  ds_crs : string;
  ds_transform : Affine;
  ds_width : Z;
  ds_height : Z;
  ds_meta : gmap string PVal;
  ds_band1 : option (Z -> Z -> Z)
}.

(** A raster file on the local disk: the profile it was created with and
    band 1, [None] as long as no band was written. *)
Record RasterFile := mkFile {
  rf_profile : gmap string PVal;
  rf_band1 : option SampleBlock
}.

(** GeoJSON geometries, by the nesting depth of their coordinate arrays. *)
Inductive Geometry :=
| Point (p : Q * Q)
| LineString (ps : list (Q * Q))
| Polygon (rings : list (list (Q * Q)))
| MultiPolygon (polys : list (list (list (Q * Q)))).

(** The result of [rasterio.features.bounds]: (left, bottom, right, top). *)
Definition BBox : Type := Q * Q * Q * Q.

Definition bbox_0 (b : BBox) : Q := let '(x0, _, _, _) := b in x0.
Definition bbox_1 (b : BBox) : Q := let '(_, y0, _, _) := b in y0.
Definition bbox_2 (b : BBox) : Q := let '(_, _, x1, _) := b in x1.
Definition bbox_3 (b : BBox) : Q := let '(_, _, _, y1) := b in y1.

(** A [pyproj.Transformer] object: its identity and the map it applies. *)
Record Transformer := mkTransformer {
  tr_id : nat;
  tr_fun : Q -> Q -> Q * Q
}.

(** What lies outside the program and does not change during a run. *)
Record World := mkWorld {
  (** [rasterio.open(href)]; [None] when the asset cannot be opened. *)
  w_remote : string -> option Dataset;
  (** the projection between two CRSs; [None] when one is not resolved. *)
  w_proj : string -> string -> option (Q -> Q -> Q * Q);
  (** creating the file at this path with this profile fails. *)
  w_create_fails : string -> gmap string PVal -> bool;
  (** writing this block into the file at this path fails. *)
  w_write_fails : string -> SampleBlock -> bool
}.

(** ** Effects: a state, error and trace monad *)

Inductive Error :=
| RemoteReadError
| InvalidGeometryError
| UnsupportedCRSError
| TransformNotInvertibleError
| KeyError
| WriteError.

(** How a computation ends: with a value, through [exit()], or with an
    exception that nothing catches. *)
Inductive Res (A : Type) :=
| Ok (a : A)
| Exited
| Raised (e : Error).
Arguments Ok {A} a.
Arguments Exited {A}.
Arguments Raised {A} e.

Inductive Event :=
| EvOpen (href : string)
| EvBounds
| EvFromCrs (tid : nat) (src dst : string)
| EvTransform (tid : nat) (x y : Q)
| EvIndex (x y : Q)
| EvPrint (msg : string)
| EvRead (href : string) (band : Z) (w : Window)
| EvCreate (path : string)
| EvWrite (path : string) (band : Z).

(** The mutable state: the local disk and the allocator of object
    identities for transformers. *)
Record St := mkSt {
  fs : gmap string RasterFile;
  next_tid : nat
}.

Definition M (A : Type) : Type := St -> Res A * St * list Event.

Definition ret {A} (a : A) : M A := fun s => (Ok a, s, []).

Definition bind {A B} (m : M A) (k : A -> M B) : M B :=
  fun s =>
    match m s with
    | (Ok a, s1, ev1) =>
        match k a s1 with
        | (r, s2, ev2) => (r, s2, ev1 ++ ev2)
        end
    | (Exited, s1, ev1) => (Exited, s1, ev1)
    | (Raised e, s1, ev1) => (Raised e, s1, ev1)
    end.

Declare Scope m_scope.
Delimit Scope m_scope with M.
Notation "x <- m ;; k" := (bind m (fun x => k))
  (at level 100, m at next level, right associativity) : m_scope.
Notation "m ;;; k" := (bind m (fun _ => k))
  (at level 100, right associativity) : m_scope.

Definition raise {A} (e : Error) : M A := fun s => (Raised e, s, []).
Definition exit_ {A} : M A := fun s => (Exited, s, []).
Definition emit (e : Event) : M unit := fun s => (Ok tt, s, [e]).
Definition print (msg : string) : M unit := emit (EvPrint msg).

Definition outcome {A} (r : Res A * St * list Event) : Res A := r.1.1.
Definition final {A} (r : Res A * St * list Event) : St := r.1.2.
Definition events {A} (r : Res A * St * list Event) : list Event := r.2.

(** ** The library calls of the loop *)

(** *** [rasterio.features.bounds] *)

Definition explode (g : Geometry) : list (Q * Q) :=
  match g with
  | Point p => [p]
  | LineString ps => ps
  | Polygon rings => concat rings
  | MultiPolygon polys => concat (concat polys)
  end.

(** The smallest and largest x and y over all coordinates of the geometry;
    a geometry without coordinates raises. *)
Definition bounds_of (g : Geometry) : option BBox :=
  match explode g with
  | [] => None
  | (x, y) :: ps =>
      Some (foldr Qmin x (ps.*1), foldr Qmin y (ps.*2),
            foldr Qmax x (ps.*1), foldr Qmax y (ps.*2))
  end.

Definition bounds (g : Geometry) : M BBox :=
  (emit EvBounds ;;;
   match bounds_of g with
   | Some b => ret b
   | None => raise InvalidGeometryError
   end)%M.

(** *** [rasterio.open(href)] for reading *)

Definition rasterio_open (W : World) (href : string) : M Dataset :=
  (emit (EvOpen href) ;;;
   match w_remote W href with
   | Some ds => ret ds
   | None => raise RemoteReadError
   end)%M.

(** *** [pyproj.Transformer] *)

(** [Transformer.from_crs(src, dst)] builds a new object on every call. *)
Definition from_crs (W : World) (src dst : string) : M Transformer :=
  fun s =>
    match w_proj W src dst with
    | Some f =>
        (Ok (mkTransformer (next_tid s) f),
         mkSt (fs s) (S (next_tid s)),
         [EvFromCrs (next_tid s) src dst])
    | None => (Raised UnsupportedCRSError, s, [])
    end.

(** [t.transform(xx, yy)]. *)
Definition transform (t : Transformer) (xx yy : Q) : M (Q * Q) :=
  (emit (EvTransform (tr_id t) xx yy) ;;; ret (tr_fun t xx yy))%M.

(** *** [DatasetReader.index]: projected (x, y) to pixel (row, col) *)

Definition affine_det (t : Affine) : Q :=
  (af_a t * af_e t - af_b t * af_d t)%Q.

(** [~t]: the inverse of an affine map, which raises when the determinant
    is zero. *)
Definition affine_invert (t : Affine) : option Affine :=
  if Qeq_bool (affine_det t) 0 then None
  else
    let idet := (/ affine_det t)%Q in
    let ra := (af_e t * idet)%Q in
    let rb := (- af_b t * idet)%Q in
    let rd := (- af_d t * idet)%Q in
    let re := (af_a t * idet)%Q in
    Some (mkAffine ra rb (- af_c t * ra - af_f t * rb)
                   rd re (- af_c t * rd - af_f t * re))%Q.

(** [t * (x, y)]. *)
Definition affine_apply (t : Affine) (x y : Q) : Q * Q :=
  (x * af_a t + y * af_b t + af_c t, x * af_d t + y * af_e t + af_f t)%Q.

(** [geo_fp.index(x, y)]: the inverse affine map followed by [math.floor],
    returned as (row, col). *)
Definition index_of (t : Affine) (x y : Q) : option (Z * Z) :=
  match affine_invert t with
  | None => None
  | Some inv =>
      let '(fcol, frow) := affine_apply inv x y in
      Some (Qfloor frow, Qfloor fcol)
  end.

Definition index (ds : Dataset) (x y : Q) : M (Z * Z) :=
  (emit (EvIndex x y) ;;;
   match index_of (ds_transform ds) x y with
   | Some p => ret p
   | None => raise TransformNotInvertibleError
   end)%M.

(** *** [rasterio.windows.Window] *)

(** [Window.from_slices((r0, r1), (c0, c1))] for non-negative starts and
    stops, the only ones that reach it: an empty slice has length 0. *)
Definition from_slices (rows cols : Z * Z) : Window :=
  mkWindow cols.1 rows.1 (Z.max (cols.2 - cols.1) 0) (Z.max (rows.2 - rows.1) 0).

(** [crop(window, height, width)]: the part of the window that lies in a
    raster of the given size. *)
Definition crop (w : Window) (height width : Z) : Window :=
  let row_start := Z.min (Z.max (row_off w) 0) height in
  let col_start := Z.min (Z.max (col_off w) 0) width in
  let row_stop := Z.max 0 (Z.min (row_off w + win_height w) height) in
  let col_stop := Z.max 0 (Z.min (col_off w + win_width w) width) in
  mkWindow col_start row_start (col_stop - col_start) (row_stop - row_start).

(** Modelled from the spec: the windowed read [geo_fp.read(1, window=window)]
    of the raster library, which is not part of the repository.  The spec
    (4.3, 4.4, 9) has it return the samples of band 1 over the window,
    clipped to the available extent when the window reaches past the
    asset's width or height. *)
Definition read_block (px : Z -> Z -> Z) (ds_h ds_w : Z) (w : Window) : SampleBlock :=
  let cw := crop w ds_h ds_w in
  mkBlock (win_height cw) (win_width cw)
    (map (fun r => map (px r) (seqZ (col_off cw) (win_width cw)))
         (seqZ (row_off cw) (win_height cw))).

Definition read (href : string) (ds : Dataset) (band : Z) (w : Window) : M SampleBlock :=
  (emit (EvRead href band w) ;;;
   match ds_band1 ds with
   | Some px => ret (read_block px (ds_height ds) (ds_width ds) w)
   | None => raise RemoteReadError
   end)%M.

(** *** [geo_fp.profile] *)

(** The profile dictionary of a dataset, built from its attributes. *)
Definition profile (ds : Dataset) : gmap string PVal :=
  <["transform" := VAffine (ds_transform ds)]>
    (<["crs" := VStr (ds_crs ds)]>
       (<["height" := VInt (ds_height ds)]>
          (<["width" := VInt (ds_width ds)]> (ds_meta ds)))).

(** [d[key]] on a profile that must hold an affine transform there. *)
Definition getitem_affine (d : gmap string PVal) (key : string) : M Affine :=
  match d !! key with
  | Some (VAffine t) => ret t
  | _ => raise KeyError
  end.

(** *** Paths *)

Definition slash : ascii := "/"%char.

(** [s.split("/")]: never empty. *)
Fixpoint split_slash (s : string) : list string :=
  match s with
  | EmptyString => [EmptyString]
  | String c rest =>
      if Ascii.eqb c slash then EmptyString :: split_slash rest
      else match split_slash rest with
           | h :: t => String c h :: t
           | [] => [String c EmptyString]
           end
  end.

(** [s.split("/")[-1]]. *)
Definition last_segment (s : string) : string :=
  List.last (split_slash s) EmptyString.

Fixpoint ends_with_slash (s : string) : bool :=
  match s with
  | EmptyString => false
  | String c EmptyString => Ascii.eqb c slash
  | String _ rest => ends_with_slash rest
  end.

Definition starts_with_slash (s : string) : bool :=
  match s with
  | String c _ => Ascii.eqb c slash
  | EmptyString => false
  end.

(** [os.path.join(a, b)] of [posixpath]. *)
Definition path_join (a b : string) : string :=
  if starts_with_slash b then b
  else if String.eqb a EmptyString || ends_with_slash a then a +:+ b
  else a +:+ "/" +:+ b.

(** *** [rasterio.open(path, "w", **profile)] and [dst.write] *)

(** Mode "w" creates the file, or replaces the one that is there, with an
    empty raster of the given profile; the handle is the path. *)
Definition open_w (W : World) (path : string) (prof : gmap string PVal) : M string :=
  fun s =>
    if w_create_fails W path prof
    then (Raised WriteError, s, [EvCreate path])
    else (Ok path,
          mkSt (<[path := mkFile prof None]> (fs s)) (next_tid s),
          [EvCreate path]).

(** [dst.write(arr, 1)]. *)
Definition write (W : World) (dst : string) (arr : SampleBlock) (band : Z) : M unit :=
  fun s =>
    if w_write_fails W dst arr
    then (Raised WriteError, s, [EvWrite dst band])
    else (Ok tt,
          mkSt (alter (fun f => mkFile (rf_profile f) (Some arr)) dst (fs s))
               (next_tid s),
          [EvWrite dst band]).

(** ** The program *)

Definition msg_extends : string := "Provided geometry extends available datafile.".
Definition msg_smaller : string := "Provide a smaller area of interest to get a result.".

(** Lines 73-79: [for pixel in ...: if pixel < 0: print; print; exit()]. *)
Fixpoint check_pixels (pixels : list Z) : M unit :=
  match pixels with
  | [] => ret tt
  | pixel :: rest =>
      if pixel <? 0
      then (print msg_extends ;;; print msg_smaller ;;; exit_)%M
      else check_pixels rest
  end.

(** Lines 64-106: the body of [for geotiff_file in links]. *)
Definition main_body (W : World) (geometry : Geometry) (dst_dir : string)
    (geotiff_file : string) : M unit :=
  (geo_fp <- rasterio_open W geotiff_file ;;
   bbox <- bounds geometry ;;
   coord_transformer <- from_crs W "epsg:4326" (ds_crs geo_fp) ;;
   coord_upper_left <- transform coord_transformer (bbox_3 bbox) (bbox_0 bbox) ;;
   coord_lower_right <- transform coord_transformer (bbox_1 bbox) (bbox_2 bbox) ;;
   pixel_upper_left <- index geo_fp coord_upper_left.1 coord_upper_left.2 ;;
   pixel_lower_right <- index geo_fp coord_lower_right.1 coord_lower_right.2 ;;
   check_pixels [pixel_upper_left.1; pixel_upper_left.2;
                 pixel_lower_right.1; pixel_lower_right.2] ;;;
   let window :=
     from_slices (pixel_upper_left.1, pixel_lower_right.1)
                 (pixel_upper_left.2, pixel_lower_right.2) in
   subset <- read geotiff_file geo_fp 1 window ;;
   let '(height, width) := shape subset in
   let profile0 := profile geo_fp in
   let profile1 := <["width" := VInt width]> profile0 in
   let profile2 := <["height" := VInt height]> profile1 in
   transform0 <- getitem_affine profile2 "transform" ;;
   let new_transform :=
     mkAffine (af_a transform0) (af_b transform0) coord_upper_left.1
              (af_d transform0) (af_e transform0) coord_upper_left.2 in
   let profile3 := <["transform" := VAffine new_transform]> profile2 in
   print ("Writing " +:+ path_join dst_dir (last_segment geotiff_file)) ;;;
   dst <- open_w W (path_join dst_dir (last_segment geotiff_file)) profile3 ;;
   write W dst subset 1)%M.

(** Line 63: the loop over the links, in order. *)
Fixpoint main (W : World) (geometry : Geometry) (dst_dir : string)
    (links : list string) : M unit :=
  match links with
  | [] => ret tt
  | geotiff_file :: rest =>
      (main_body W geometry dst_dir geotiff_file ;;;
       main W geometry dst_dir rest)%M
  end.

(** ** Derived notions used in the statements *)

(** The destination of an asset, as line 104 computes it. *)
Definition out_path (dst_dir geotiff_file : string) : string :=
  path_join dst_dir (last_segment geotiff_file).

Definition any_negative (pixels : list Z) : bool :=
  existsb (fun pixel => pixel <? 0) pixels.

Definition is_bounds (e : Event) : bool :=
  match e with EvBounds => true | _ => false end.
Definition is_from_crs (e : Event) : bool :=
  match e with EvFromCrs _ _ _ => true | _ => false end.
Definition is_transform (e : Event) : bool :=
  match e with EvTransform _ _ _ => true | _ => false end.
Definition is_index (e : Event) : bool :=
  match e with EvIndex _ _ => true | _ => false end.
Definition is_read (e : Event) : bool :=
  match e with EvRead _ _ _ => true | _ => false end.
Definition is_disk (e : Event) : bool :=
  match e with EvCreate _ | EvWrite _ _ => true | _ => false end.
Definition is_print (e : Event) : bool :=
  match e with EvPrint _ => true | _ => false end.


(** The events of an iteration up to the validation of the pixel
    coordinates, for a transformer of identity [tid]. *)
Definition located_events (geotiff_file : string) (geo_fp : Dataset) (tid : nat)
    (bbox : BBox) (ul lr : Q * Q) : list Event :=
  [EvOpen geotiff_file; EvBounds;
   EvFromCrs tid "epsg:4326" (ds_crs geo_fp);
   EvTransform tid (bbox_3 bbox) (bbox_0 bbox);
   EvTransform tid (bbox_1 bbox) (bbox_2 bbox);
   EvIndex ul.1 ul.2; EvIndex lr.1 lr.2].

(** The profile handed to [rasterio.open(..., "w", **profile)], lines
    89-101. *)
Definition out_profile (geo_fp : Dataset) (ul : Q * Q) (subset : SampleBlock)
    : gmap string PVal :=
  <["transform" :=
      VAffine (mkAffine (af_a (ds_transform geo_fp)) (af_b (ds_transform geo_fp)) ul.1
                        (af_d (ds_transform geo_fp)) (af_e (ds_transform geo_fp)) ul.2)]>
    (<["height" := VInt (sb_height subset)]>
       (<["width" := VInt (sb_width subset)]> (profile geo_fp))).

(** The identities of the transformers that a trace constructs, and the
    number of points a trace applies a given transformer to. *)
Definition from_crs_ids (ev : list Event) : list nat :=
  omap (fun e => match e with EvFromCrs tid _ _ => Some tid | _ => None end) ev.

Definition applies (tid : nat) (e : Event) : bool :=
  match e with EvTransform t _ _ => Nat.eqb t tid | _ => false end.

Definition applications (tid : nat) (ev : list Event) : nat :=
  length (filter (fun e => applies tid e = true) ev).

Definition bounds_computations (ev : list Event) : nat :=
  length (filter (fun e => is_bounds e = true) ev).

(** A trace without the bounding-box computations, which touch nothing
    outside the process. *)
Definition observable (ev : list Event) : list Event :=
  filter (fun e => is_bounds e = false) ev.

(** A trace with the identities of the transformer objects forgotten. *)
Definition erase_tid (e : Event) : Event :=
  match e with
  | EvFromCrs _ src dst => EvFromCrs 0 src dst
  | EvTransform _ x y => EvTransform 0 x y
  | _ => e
  end.

Fixpoint no_slash (s : string) : bool :=
  match s with
  | EmptyString => true
  | String c rest => negb (Ascii.eqb c slash) && no_slash rest
  end.

(** The band of the file at a path, when there is one. *)
Definition band_at (disk : gmap string RasterFile) (path : string) : option SampleBlock :=
  match disk !! path with
  | Some f => rf_band1 f
  | None => None
  end.

(** ** The pipeline with the bounding box derived once

    The reading of the spec ("BoundingBox is computed once per run"): the
    bounding box is derived before the loop and handed to every
    iteration.  [spec_body] is [main_body] without its line 65. *)
Definition spec_body (W : World) (bbox : BBox) (dst_dir : string)
    (geotiff_file : string) : M unit :=
  (geo_fp <- rasterio_open W geotiff_file ;;
   coord_transformer <- from_crs W "epsg:4326" (ds_crs geo_fp) ;;
   coord_upper_left <- transform coord_transformer (bbox_3 bbox) (bbox_0 bbox) ;;
   coord_lower_right <- transform coord_transformer (bbox_1 bbox) (bbox_2 bbox) ;;
   pixel_upper_left <- index geo_fp coord_upper_left.1 coord_upper_left.2 ;;
   pixel_lower_right <- index geo_fp coord_lower_right.1 coord_lower_right.2 ;;
   check_pixels [pixel_upper_left.1; pixel_upper_left.2;
                 pixel_lower_right.1; pixel_lower_right.2] ;;;
   let window :=
     from_slices (pixel_upper_left.1, pixel_lower_right.1)
                 (pixel_upper_left.2, pixel_lower_right.2) in
   subset <- read geotiff_file geo_fp 1 window ;;
   let '(height, width) := shape subset in
   let profile0 := profile geo_fp in
   let profile1 := <["width" := VInt width]> profile0 in
   let profile2 := <["height" := VInt height]> profile1 in
   transform0 <- getitem_affine profile2 "transform" ;;
   let new_transform :=
     mkAffine (af_a transform0) (af_b transform0) coord_upper_left.1
              (af_d transform0) (af_e transform0) coord_upper_left.2 in
   let profile3 := <["transform" := VAffine new_transform]> profile2 in
   print ("Writing " +:+ path_join dst_dir (last_segment geotiff_file)) ;;;
   dst <- open_w W (path_join dst_dir (last_segment geotiff_file)) profile3 ;;
   write W dst subset 1)%M.

Fixpoint spec_loop (W : World) (bbox : BBox) (dst_dir : string)
    (links : list string) : M unit :=
  match links with
  | [] => ret tt
  | geotiff_file :: rest =>
      (spec_body W bbox dst_dir geotiff_file ;;;
       spec_loop W bbox dst_dir rest)%M
  end.

Definition spec_main (W : World) (geometry : Geometry) (dst_dir : string)
    (links : list string) : M unit :=
  (bbox <- bounds geometry ;; spec_loop W bbox dst_dir links)%M.

(** ** Three sentences of the specification, as they are written *)

(** "The BoundingBox is computed from the Geometry once per run." *)
Definition bbox_computed_once (W : World) (geometry : Geometry) (dst_dir : string)
    (links : list string) (s : St) : Prop :=
  bounds_computations (events (main W geometry dst_dir links s)) = 1%nat.

(** "The SampleBlock has shape (h, w) with h == r1 - r0 and w == c1 - c0,
    always": for an asset that is processed to completion with the pixel
    window (r0, r1, c0, c1). *)
Definition shape_is_window_extent (W : World) (geometry : Geometry)
    (dst_dir geotiff_file : string) (s : St) : Prop :=
  forall geo_fp min_x min_y max_x max_y proj r0 c0 r1 c1 subset,
    w_remote W geotiff_file = Some geo_fp ->
    bounds_of geometry = Some (min_x, min_y, max_x, max_y) ->
    w_proj W "epsg:4326" (ds_crs geo_fp) = Some proj ->
    index_of (ds_transform geo_fp) (proj max_y min_x).1 (proj max_y min_x).2
      = Some (r0, c0) ->
    index_of (ds_transform geo_fp) (proj min_y max_x).1 (proj min_y max_x).2
      = Some (r1, c1) ->
    outcome (main_body W geometry dst_dir geotiff_file s) = Ok tt ->
    band_at (fs (final (main_body W geometry dst_dir geotiff_file s)))
            (out_path dst_dir geotiff_file) = Some subset ->
    shape subset = (r1 - r0, c1 - c0).

(** "When the run is aborted while processing the k-th asset, the output
    files already written for the first k-1 assets remain on disk
    unchanged": [done] are the first k-1 links, [geotiff_file] the k-th. *)
Definition earlier_outputs_unchanged (W : World) (geometry : Geometry)
    (dst_dir : string) (done : list string) (geotiff_file : string)
    (rest : list string) (s : St) : Prop :=
  let before := final (main W geometry dst_dir done s) in
  outcome (main W geometry dst_dir done s) = Ok tt ->
  outcome (main_body W geometry dst_dir geotiff_file before) <> Ok tt ->
  forall h, In h done ->
    fs (final (main W geometry dst_dir (done ++ geotiff_file :: rest) s))
      !! out_path dst_dir h
    = fs before !! out_path dst_dir h.

(** ** A concrete world

    Two assets that share their file name, in two UTM zones, and a
    projection for each zone. *)

Definition ex_transform : Affine := mkAffine 10 0 500000 0 (-10) 5010000.
Definition ex_transform_b : Affine := mkAffine 5 0 400000 0 (-5) 5010000.

Definition ex_meta : gmap string PVal :=
  {[ "driver" := VStr "GTiff"; "dtype" := VStr "uint16"; "count" := VInt 1;
     "nodata" := VNone; "compress" := VStr "deflate" ]}.

Definition ex_asset : Dataset :=
  mkDataset "EPSG:32632" ex_transform 100 100 ex_meta (Some (fun r c => r * 100 + c)).

Definition ex_asset_b : Dataset :=
  mkDataset "EPSG:32633" ex_transform_b 200 200 ex_meta (Some (fun r c => r * 200 + c)).

Definition ex_proj (lat lon : Q) : Q * Q :=
  (500100 + (lon - 10) * 1000, 5009770 + (lat - 45) * 1000)%Q.

Definition ex_proj_b (lat lon : Q) : Q * Q :=
  (400050 + (lon - 10) * 1000, 5009885 + (lat - 45) * 1000)%Q.

Definition ex_href : string := "https://h/a/scene_band4.tif".
Definition ex_href_b : string := "https://h/b/scene_band4.tif".

Definition ex_remote (href : string) : option Dataset :=
  if String.eqb href ex_href then Some ex_asset
  else if String.eqb href ex_href_b then Some ex_asset_b
  else None.

Definition ex_crs (src dst : string) : option (Q -> Q -> Q * Q) :=
  if negb (String.eqb src "epsg:4326") then None
  else if String.eqb dst "EPSG:32632" then Some ex_proj
  else if String.eqb dst "EPSG:32633" then Some ex_proj_b
  else None.

(** A world where nothing fails on the disk. *)
Definition ex_world : World :=
  mkWorld ex_remote ex_crs (fun _ _ => false) (fun _ _ => false).

(** A world whose disk is full after twenty samples. *)
Definition ex_world_full : World :=
  mkWorld ex_remote ex_crs (fun _ _ => false)
          (fun _ arr => 20 <? sb_height arr * sb_width arr).

(** An area inside both assets, one that reaches west of the first asset,
    and one that reaches east of it. *)
Definition ex_geometry : Geometry :=
  Polygon [[(10, 45); (10.05, 45); (10.05, 45.03); (10, 45.03); (10, 45)]]%Q.
Definition ex_geometry_west : Geometry :=
  Polygon [[(9.85, 45); (10.05, 45); (10.05, 45.03); (9.85, 45.03); (9.85, 45)]]%Q.
Definition ex_geometry_east : Geometry :=
  Polygon [[(10, 45); (11, 45); (11, 45.03); (10, 45.03); (10, 45)]]%Q.

Definition ex_state : St := mkSt ∅ 0.

(** An area inside the first asset that reaches west of the second. *)
Definition ex_geometry_mid : Geometry :=
  Polygon [[(9.93, 45); (10.05, 45); (10.05, 45.03); (9.93, 45.03); (9.93, 45)]]%Q.

(** A disk that already holds a file where the example assets are written. *)
Definition ex_state_old : St :=
  mkSt {[ "out/scene_band4.tif" := mkFile ex_meta None ]} 0.

(** ** Before the loop: lines 43-61 of [main]

    The values that [json.load] and [Item.to_dict] return, the subscripts
    that [main] applies to them, and the selection of the links. *)

(** The exceptions of the subscripts and of the iteration over [bands]. *)
Inductive PyError :=
| PyKeyError
| PyIndexError
| PyTypeError.

(** A value as [json.load] builds it: [None], a bool, a number, a str, a
    list or a dict with str keys. *)
#[warnings="-register-all"]
Inductive Json :=
| JNull
| JBool (b : bool)
| JNum (q : Q)
| JStr (s : string)
| JArr (elements : list Json)
| JObj (members : gmap string Json).

(** [v[key]] for a str [key]: a dict looks the key up, every other value
    refuses a str subscript. *)
Definition getitem_str (v : Json) (key : string) : PyError + Json :=
  match v with
  | JObj m =>
      match m !! key with
      | Some x => inr x
      | None => inl PyKeyError
      end
  | _ => inl PyTypeError
  end.

(** [v[0]]: the first element of a list, the first character of a str, a
    missing key of a dict (its keys are strs). *)
Definition getitem_0 (v : Json) : PyError + Json :=
  match v with
  | JArr (x :: _) => inr x
  | JArr [] => inl PyIndexError
  | JStr (String c _) => inr (JStr (String c EmptyString))
  | JStr EmptyString => inl PyIndexError
  | JObj _ => inl PyKeyError
  | _ => inl PyTypeError
  end.

(** Line 45: [file_content["features"][0]["geometry"]]. *)
Definition select_geometry (file_content : Json) : PyError + Json :=
  match getitem_str file_content "features" with
  | inl e => inl e
  | inr features =>
      match getitem_0 features with
      | inl e => inl e
      | inr feature => getitem_str feature "geometry"
      end
  end.

(** [x in list(item.keys())]. *)
Definition in_keys (item : gmap string Json) (x : string) : bool :=
  match item !! x with
  | Some _ => true
  | None => false
  end.

(** Lines 60-61: [for band in bands: links.append(item[str(band)]["href"])];
    [str(band)] is [band], the bands being strs. *)
Fixpoint append_hrefs (item : gmap string Json) (bands : list string)
    (links : list Json) : PyError + list Json :=
  match bands with
  | [] => inr links
  | band :: rest =>
      match getitem_str (JObj item) band with
      | inl e => inl e
      | inr asset =>
          match getitem_str asset "href" with
          | inl e => inl e
          | inr href => append_hrefs item rest (links ++ [href])
          end
      end
  end.

(** Lines 57-61.  [bands] is [None] when the option is not given; the
    generator of line 58 then raises as soon as there is an item. *)
Fixpoint collect_links (items : list (gmap string Json))
    (bands : option (list string)) (links : list Json) : PyError + list Json :=
  match items with
  | [] => inr links
  | item :: rest =>
      match bands with
      | None => inl PyTypeError
      | Some bs =>
          if negb (forallb (in_keys item) bs)
          then collect_links rest bands links
          else
            match append_hrefs item bs links with
            | inl e => inl e
            | inr links' => collect_links rest bands links'
            end
      end
  end.

(** An item that passes line 58, and the hrefs it gives when each of its
    requested assets is a dict with an "href". *)
Definition has_all_bands (bands : list string) (item : gmap string Json) : bool :=
  forallb (in_keys item) bands.

Definition href_of (item : gmap string Json) (band : string) : option Json :=
  match item !! band with
  | Some (JObj asset) => asset !! "href"
  | _ => None
  end.

Definition is_open (e : Event) : bool :=
  match e with EvOpen _ => true | _ => false end.

(** The destinations of a list of links. *)
Definition destinations (dst_dir : string) (links : list string) : list string :=
  map (out_path dst_dir) links.

(** [s.startswith(p)]. *)
Fixpoint starts_with (p s : string) : bool :=
  match p, s with
  | EmptyString, _ => true
  | String a p', String b s' => Ascii.eqb a b && starts_with p' s'
  | String _ _, EmptyString => false
  end.

(** A STAC item with two bands, one with a single band, and a FeatureCollection
    with two features. *)
Definition ex_item : gmap string Json :=
  {[ "red" := JObj {[ "href" := JStr "https://h/a/red.tif"; "type" := JStr "image/tiff" ]};
     "nir" := JObj {[ "href" := JStr "https://h/a/nir.tif" ]} ]}.

Definition ex_item_red_only : gmap string Json :=
  {[ "red" := JObj {[ "href" := JStr "https://h/b/red.tif" ]};
     "thumbnail" := JStr "https://h/b/preview.png" ]}.

Definition ex_point : Json :=
  JObj {[ "type" := JStr "Point"; "coordinates" := JArr [JNum 10; JNum 45] ]}.

Definition ex_collection : Json :=
  JObj {[ "type" := JStr "FeatureCollection";
          "features" :=
            JArr [ JObj {[ "type" := JStr "Feature"; "geometry" := ex_point ]};
                   JObj {[ "type" := JStr "Feature"; "geometry" := JNull ]} ] ]}.

(** ["/".join(parts)]. *)
Fixpoint join_slash (parts : list string) : string :=
  match parts with
  | [] => EmptyString
  | [x] => x
  | x :: rest => x +:+ "/" +:+ join_slash rest
  end.

(** What an iteration leaves at its destination when it is run on an empty
    disk. *)
Definition written_file (W : World) (geometry : Geometry) (dst_dir href : string)
    : option RasterFile :=
  fs (final (main_body W geometry dst_dir href (mkSt ∅ 0))) !! out_path dst_dir href.

(** The hrefs that lines 60-61 append for an item. *)
Definition item_hrefs (bands : list string) (item : gmap string Json) : list Json :=
  omap (href_of item) bands.


(** A world that serves the two assets of [ex_item]. *)
Definition ex_remote_bands (href : string) : option Dataset :=
  if String.eqb href "https://h/a/red.tif" then Some ex_asset
  else if String.eqb href "https://h/a/nir.tif" then Some ex_asset_b
  else None.

Definition ex_world_bands : World :=
  mkWorld ex_remote_bands ex_crs (fun _ _ => false) (fun _ _ => false).

(** An item whose "red" asset has no "href". *)
Definition ex_item_no_href : gmap string Json :=
  {[ "red" := JObj {[ "type" := JStr "image/tiff" ]} ]}.
(** ** The monad: basic equations *)

Lemma bind_ok {A B} (m : M A) (k : A -> M B) s a s1 ev1 :
  m s = (Ok a, s1, ev1) ->
  bind m k s = ((k a s1).1.1, (k a s1).1.2, ev1 ++ (k a s1).2).
Proof. intros H. unfold bind. rewrite H. by destruct (k a s1) as [[r s2] ev2]. Qed.

Lemma bind_exited {A B} (m : M A) (k : A -> M B) s s1 ev1 :
  m s = (Exited, s1, ev1) -> bind m k s = (Exited, s1, ev1).
Proof. intros H. unfold bind. by rewrite H. Qed.

Lemma bind_raised {A B} (m : M A) (k : A -> M B) s e s1 ev1 :
  m s = (Raised e, s1, ev1) -> bind m k s = (Raised e, s1, ev1).
Proof. intros H. unfold bind. by rewrite H. Qed.

Lemma check_pixels_eq pixels s :
  check_pixels pixels s =
    if any_negative pixels
    then (Exited, s, [EvPrint msg_extends; EvPrint msg_smaller])
    else (Ok tt, s, []).
Proof.
  induction pixels as [|p ps IH]; simpl; [done|].
  destruct (p <? 0); simpl; [done | apply IH].
Qed.

Lemma any_negative_four r0 c0 r1 c1 :
  any_negative [r0; c0; r1; c1] = true <-> r0 < 0 \/ c0 < 0 \/ r1 < 0 \/ c1 < 0.
Proof.
  unfold any_negative; simpl.
  rewrite !orb_true_iff, !Z.ltb_lt. intuition congruence.
Qed.

(** ** One asset whose geometry stage succeeds *)

#[local] Arguments check_pixels : simpl never.
#[local] Arguments any_negative : simpl never.
#[local] Arguments read_block : simpl never.
#[local] Arguments from_slices : simpl never.

Section Asset.
Variables (W : World) (geometry : Geometry) (dst_dir geotiff_file : string).
Variables (geo_fp : Dataset) (min_x min_y max_x max_y : Q).
Variable proj : Q -> Q -> Q * Q.
Variables r0 c0 r1 c1 : Z.

Hypothesis Hopen : w_remote W geotiff_file = Some geo_fp.
Hypothesis Hbounds : bounds_of geometry = Some (min_x, min_y, max_x, max_y).
Hypothesis Hproj : w_proj W "epsg:4326" (ds_crs geo_fp) = Some proj.
Hypothesis Hul :
  index_of (ds_transform geo_fp) (proj max_y min_x).1 (proj max_y min_x).2
  = Some (r0, c0).
Hypothesis Hlr :
  index_of (ds_transform geo_fp) (proj min_y max_x).1 (proj min_y max_x).2
  = Some (r1, c1).

(** The closed form of one iteration. *)
Lemma main_body_located s :
  main_body W geometry dst_dir geotiff_file s =
    let s1 := mkSt (fs s) (S (next_tid s)) in
    let pre := located_events geotiff_file geo_fp (next_tid s)
                 (min_x, min_y, max_x, max_y)
                 (proj max_y min_x) (proj min_y max_x) in
    let path := out_path dst_dir geotiff_file in
    let window := from_slices (r0, r1) (c0, c1) in
    if any_negative [r0; c0; r1; c1]
    then (Exited, s1, pre ++ [EvPrint msg_extends; EvPrint msg_smaller])
    else
      match ds_band1 geo_fp with
      | None =>
          (Raised RemoteReadError, s1, pre ++ [EvRead geotiff_file 1 window])
      | Some px =>
          let subset := read_block px (ds_height geo_fp) (ds_width geo_fp) window in
          let ev := pre ++ [EvRead geotiff_file 1 window;
                            EvPrint ("Writing " +:+ path); EvCreate path] in
          if w_create_fails W path (out_profile geo_fp (proj max_y min_x) subset)
          then (Raised WriteError, s1, ev)
          else if w_write_fails W path subset
          then (Raised WriteError,
                mkSt (<[path := mkFile (out_profile geo_fp (proj max_y min_x)
                                                    subset) None]> (fs s))
                     (S (next_tid s)),
                ev ++ [EvWrite path 1])
          else (Ok tt,
                mkSt (<[path := mkFile (out_profile geo_fp (proj max_y min_x)
                                                    subset) (Some subset)]> (fs s))
                     (S (next_tid s)),
                ev ++ [EvWrite path 1])
      end.
Proof.
  unfold main_body, bind at 1, rasterio_open, bind at 1, emit. simpl.
  rewrite Hopen. simpl.
  unfold bind at 1, bounds, bind at 1, emit. simpl.
  rewrite Hbounds. simpl.
  unfold bind at 1, from_crs. rewrite Hproj. simpl.
  unfold bind at 1, transform, bind at 1, emit. simpl.
  unfold bind at 1, bind at 1. simpl.
  unfold bind at 1, index, bind at 1, emit. simpl.
  rewrite Hul. simpl.
  unfold bind at 1, bind at 1. simpl. rewrite Hlr. simpl.
  unfold bind at 1. rewrite check_pixels_eq.
  destruct (any_negative [r0; c0; r1; c1]); [done|].
  unfold bind at 1, read, bind at 1, emit. simpl.
  destruct (ds_band1 geo_fp) as [px|]; [|done]. simpl.
  unfold bind at 1, getitem_affine.
  rewrite lookup_insert_ne, lookup_insert_ne by done.
  unfold profile at 1. rewrite lookup_insert_eq. simpl.
  unfold bind at 1, print, emit. simpl.
  unfold bind at 1, open_w. fold (out_path dst_dir geotiff_file).
  set (subset := read_block px (ds_height geo_fp) (ds_width geo_fp)
                   (from_slices (r0, r1) (c0, c1))).
  fold (out_profile geo_fp (proj max_y min_x) subset).
  destruct (w_create_fails W _ _); [done|]. simpl.
  unfold write. simpl.
  destruct (w_write_fails W _ _); [done|].
  by rewrite alter_insert_eq.
Qed.
End Asset.

(** ** One asset whose geometry stage fails *)

Section AssetFails.
Variables (W : World) (geometry : Geometry) (dst_dir geotiff_file : string).

Lemma main_body_open_fails s :
  w_remote W geotiff_file = None ->
  main_body W geometry dst_dir geotiff_file s
  = (Raised RemoteReadError, s, [EvOpen geotiff_file]).
Proof.
  intros Hopen.
  unfold main_body, bind at 1, rasterio_open, bind at 1, emit. simpl.
  by rewrite Hopen.
Qed.

Variable geo_fp : Dataset.
Hypothesis Hopen : w_remote W geotiff_file = Some geo_fp.

Lemma main_body_bounds_fails s :
  bounds_of geometry = None ->
  main_body W geometry dst_dir geotiff_file s
  = (Raised InvalidGeometryError, s, [EvOpen geotiff_file; EvBounds]).
Proof.
  intros Hbounds.
  unfold main_body, bind at 1, rasterio_open, bind at 1, emit. simpl.
  rewrite Hopen. simpl.
  unfold bind at 1, bounds, bind at 1, emit. simpl.
  by rewrite Hbounds.
Qed.

Variable bbox : BBox.
Hypothesis Hbounds : bounds_of geometry = Some bbox.

Lemma main_body_crs_fails s :
  w_proj W "epsg:4326" (ds_crs geo_fp) = None ->
  main_body W geometry dst_dir geotiff_file s
  = (Raised UnsupportedCRSError, s, [EvOpen geotiff_file; EvBounds]).
Proof.
  intros Hproj.
  unfold main_body, bind at 1, rasterio_open, bind at 1, emit. simpl.
  rewrite Hopen. simpl.
  unfold bind at 1, bounds, bind at 1, emit. simpl.
  rewrite Hbounds. simpl.
  unfold bind at 1, from_crs. by rewrite Hproj.
Qed.

Variable proj : Q -> Q -> Q * Q.
Hypothesis Hproj : w_proj W "epsg:4326" (ds_crs geo_fp) = Some proj.

Lemma main_body_index_ul_fails s :
  index_of (ds_transform geo_fp) (proj (bbox_3 bbox) (bbox_0 bbox)).1
    (proj (bbox_3 bbox) (bbox_0 bbox)).2 = None ->
  main_body W geometry dst_dir geotiff_file s
  = (Raised TransformNotInvertibleError,
     mkSt (fs s) (S (next_tid s)),
     [EvOpen geotiff_file; EvBounds;
      EvFromCrs (next_tid s) "epsg:4326" (ds_crs geo_fp);
      EvTransform (next_tid s) (bbox_3 bbox) (bbox_0 bbox);
      EvTransform (next_tid s) (bbox_1 bbox) (bbox_2 bbox);
      EvIndex (proj (bbox_3 bbox) (bbox_0 bbox)).1 (proj (bbox_3 bbox) (bbox_0 bbox)).2]).
Proof.
  intros Hul.
  unfold main_body, bind at 1, rasterio_open, bind at 1, emit. simpl.
  rewrite Hopen. simpl.
  unfold bind at 1, bounds, bind at 1, emit. simpl.
  rewrite Hbounds. simpl.
  unfold bind at 1, from_crs. rewrite Hproj. simpl.
  unfold bind at 1, transform, bind at 1, emit. simpl.
  unfold bind at 1, bind at 1. simpl.
  unfold bind at 1, index, bind at 1, emit. simpl.
  by rewrite Hul.
Qed.

Lemma main_body_index_lr_fails s pul :
  index_of (ds_transform geo_fp) (proj (bbox_3 bbox) (bbox_0 bbox)).1
    (proj (bbox_3 bbox) (bbox_0 bbox)).2 = Some pul ->
  index_of (ds_transform geo_fp) (proj (bbox_1 bbox) (bbox_2 bbox)).1
    (proj (bbox_1 bbox) (bbox_2 bbox)).2 = None ->
  main_body W geometry dst_dir geotiff_file s
  = (Raised TransformNotInvertibleError,
     mkSt (fs s) (S (next_tid s)),
     [EvOpen geotiff_file; EvBounds;
      EvFromCrs (next_tid s) "epsg:4326" (ds_crs geo_fp);
      EvTransform (next_tid s) (bbox_3 bbox) (bbox_0 bbox);
      EvTransform (next_tid s) (bbox_1 bbox) (bbox_2 bbox);
      EvIndex (proj (bbox_3 bbox) (bbox_0 bbox)).1 (proj (bbox_3 bbox) (bbox_0 bbox)).2;
      EvIndex (proj (bbox_1 bbox) (bbox_2 bbox)).1 (proj (bbox_1 bbox) (bbox_2 bbox)).2]).
Proof.
  intros Hul Hlr.
  unfold main_body, bind at 1, rasterio_open, bind at 1, emit. simpl.
  rewrite Hopen. simpl.
  unfold bind at 1, bounds, bind at 1, emit. simpl.
  rewrite Hbounds. simpl.
  unfold bind at 1, from_crs. rewrite Hproj. simpl.
  unfold bind at 1, transform, bind at 1, emit. simpl.
  unfold bind at 1, bind at 1. simpl.
  unfold bind at 1, index, bind at 1, emit. simpl.
  rewrite Hul. simpl.
  unfold bind at 1, bind at 1. simpl. by rewrite Hlr.
Qed.
End AssetFails.

(** Case analysis on one iteration: the five ways the geometry stage can
    fail, then the closed form of [main_body_located]. *)
Ltac body_cases W geometry dst_dir href :=
  let ds := fresh "ds" in
  let bb := fresh "bbox" in
  let pr := fresh "proj" in
  let x0 := fresh "min_x" in
  let y0 := fresh "min_y" in
  let x1 := fresh "max_x" in
  let y1 := fresh "max_y" in
  let Hopen := fresh "Hopen" in
  let Hbounds := fresh "Hbounds" in
  let Hproj := fresh "Hproj" in
  let Hul := fresh "Hul" in
  let Hlr := fresh "Hlr" in
  destruct (w_remote W href) as [ds|] eqn:Hopen;
  [ destruct (bounds_of geometry) as [bb|] eqn:Hbounds;
    [ destruct (w_proj W "epsg:4326" (ds_crs ds)) as [pr|] eqn:Hproj;
      [ destruct bb as [[[x0 y0] x1] y1];
        destruct (index_of (ds_transform ds) (pr y1 x0).1 (pr y1 x0).2)
          as [[? ?]|] eqn:Hul;
        [ destruct (index_of (ds_transform ds) (pr y0 x1).1 (pr y0 x1).2)
            as [[? ?]|] eqn:Hlr;
          [ rewrite !(main_body_located W geometry dst_dir href _ _ _ _ _ _ _ _ _ _
                        Hopen Hbounds Hproj Hul Hlr)
          | rewrite !(fun s => main_body_index_lr_fails W geometry dst_dir href _ Hopen
                                 _ Hbounds _ Hproj s _ Hul Hlr) ]
        | rewrite !(fun s => main_body_index_ul_fails W geometry dst_dir href _ Hopen
                               _ Hbounds _ Hproj s Hul) ]
      | rewrite !(fun s => main_body_crs_fails W geometry dst_dir href _ Hopen
                             _ Hbounds s Hproj) ]
    | rewrite !(fun s => main_body_bounds_fails W geometry dst_dir href _ Hopen s Hbounds) ]
  | rewrite !(fun s => main_body_open_fails W geometry dst_dir href s Hopen) ].

(** A first use: the allocator of transformer identities never goes
    back. *)
Lemma main_body_next_tid W geometry dst_dir href s :
  (next_tid s <= next_tid (final (main_body W geometry dst_dir href s)))%nat.
Proof.
  body_cases W geometry dst_dir href; unfold final; simpl; try lia.
  repeat (case_match; simpl; try lia).
Qed.

(** ** The loop *)

Lemma main_cons W geometry dst_dir href rest s :
  main W geometry dst_dir (href :: rest) s =
    match main_body W geometry dst_dir href s with
    | (Ok _, s1, ev1) =>
        (outcome (main W geometry dst_dir rest s1),
         final (main W geometry dst_dir rest s1),
         ev1 ++ events (main W geometry dst_dir rest s1))
    | (Exited, s1, ev1) => (Exited, s1, ev1)
    | (Raised e, s1, ev1) => (Raised e, s1, ev1)
    end.
Proof.
  simpl. unfold bind.
  destruct (main_body W geometry dst_dir href s) as [[[[]| |e] s1] ev1]; try done.
  by destruct (main W geometry dst_dir rest s1) as [[r s2] ev2].
Qed.

(** An iteration that does not end normally ends the run: the remaining
    links are not processed. *)
Lemma main_stops W geometry dst_dir href rest s :
  outcome (main_body W geometry dst_dir href s) <> Ok tt ->
  main W geometry dst_dir (href :: rest) s = main_body W geometry dst_dir href s.
Proof.
  intros Hne. rewrite main_cons.
  destruct (main_body W geometry dst_dir href s) as [[[[]| |e] s1] ev1]; done.
Qed.

(** ** One asset processed to completion *)

Section Completed.
Variables (W : World) (geometry : Geometry) (dst_dir geotiff_file : string).
Variables (geo_fp : Dataset) (min_x min_y max_x max_y : Q).
Variable proj : Q -> Q -> Q * Q.
Variables r0 c0 r1 c1 : Z.

Hypothesis Hopen : w_remote W geotiff_file = Some geo_fp.
Hypothesis Hbounds : bounds_of geometry = Some (min_x, min_y, max_x, max_y).
Hypothesis Hproj : w_proj W "epsg:4326" (ds_crs geo_fp) = Some proj.
Hypothesis Hul :
  index_of (ds_transform geo_fp) (proj max_y min_x).1 (proj max_y min_x).2
  = Some (r0, c0).
Hypothesis Hlr :
  index_of (ds_transform geo_fp) (proj min_y max_x).1 (proj min_y max_x).2
  = Some (r1, c1).

Lemma main_body_completed s :
  outcome (main_body W geometry dst_dir geotiff_file s) = Ok tt ->
  exists px,
    ds_band1 geo_fp = Some px /\
    any_negative [r0; c0; r1; c1] = false /\
    let window := from_slices (r0, r1) (c0, c1) in
    let subset := read_block px (ds_height geo_fp) (ds_width geo_fp) window in
    let path := out_path dst_dir geotiff_file in
    w_create_fails W path (out_profile geo_fp (proj max_y min_x) subset) = false /\
    w_write_fails W path subset = false /\
    main_body W geometry dst_dir geotiff_file s =
      (Ok tt,
       mkSt (<[path := mkFile (out_profile geo_fp (proj max_y min_x) subset)
                              (Some subset)]> (fs s))
            (S (next_tid s)),
       located_events geotiff_file geo_fp (next_tid s)
         (min_x, min_y, max_x, max_y) (proj max_y min_x) (proj min_y max_x)
       ++ [EvRead geotiff_file 1 window; EvPrint ("Writing " +:+ path);
           EvCreate path; EvWrite path 1]).
Proof.
  rewrite (main_body_located _ _ _ _ _ _ _ _ _ _ _ _ _ _
             Hopen Hbounds Hproj Hul Hlr s). cbv zeta.
  destruct (any_negative [r0; c0; r1; c1]); [done|].
  destruct (ds_band1 geo_fp) as [px|]; [|done].
  destruct (w_create_fails W _ _) eqn:Hc; [done|].
  destruct (w_write_fails W _ _) eqn:Hw; [done|].
  intros _. exists px. by split_and!.
Qed.
End Completed.

(** ** C1: the out-of-bounds condition *)

(** C1.  For an asset whose pixel coordinates (r0, c0) of the upper-left
    corner and (r1, c1) of the lower-right corner have been computed, the
    iteration ends through [exit()] if and only if one of the four is
    negative.  When it does, the two diagnostic lines are printed, no read
    and no disk access is attempted, the disk is as before, and the run ends
    there whatever links remain.  Nothing compares the coordinates with the
    width or height of the asset ([ds_width], [ds_height] do not occur in
    the statement): four non-negative coordinates never end the run this
    way, however large they are. *)
Theorem C1_exit_iff_negative_pixel
    W geometry dst_dir href geo_fp min_x min_y max_x max_y proj r0 c0 r1 c1 rest s :
  w_remote W href = Some geo_fp ->
  bounds_of geometry = Some (min_x, min_y, max_x, max_y) ->
  w_proj W "epsg:4326" (ds_crs geo_fp) = Some proj ->
  index_of (ds_transform geo_fp) (proj max_y min_x).1 (proj max_y min_x).2
    = Some (r0, c0) ->
  index_of (ds_transform geo_fp) (proj min_y max_x).1 (proj min_y max_x).2
    = Some (r1, c1) ->
  let r := main_body W geometry dst_dir href s in
  (outcome r = Exited <-> r0 < 0 \/ c0 < 0 \/ r1 < 0 \/ c1 < 0) /\
  (outcome r = Exited ->
     filter (fun e => is_print e = true) (events r)
       = [EvPrint msg_extends; EvPrint msg_smaller] /\
     filter (fun e => is_read e = true) (events r) = [] /\
     filter (fun e => is_disk e = true) (events r) = [] /\
     fs (final r) = fs s /\
     main W geometry dst_dir (href :: rest) s = r) /\
  (0 <= r0 -> 0 <= c0 -> 0 <= r1 -> 0 <= c1 -> outcome r <> Exited).
Proof.
  intros Hopen Hbounds Hproj Hul Hlr r.
  assert (Hexit : outcome r = Exited <-> any_negative [r0; c0; r1; c1] = true).
  { subst r.
    rewrite (main_body_located _ _ _ _ _ _ _ _ _ _ _ _ _ _
               Hopen Hbounds Hproj Hul Hlr s). cbv zeta.
    destruct (any_negative [r0; c0; r1; c1]); [done|].
    split; [|done]. unfold outcome.
    repeat (case_match; simpl); done. }
  split; [by rewrite Hexit, any_negative_four|].
  split.
  - intros Hex. pose proof Hex as Hneg. apply Hexit in Hneg.
    assert (Hr : r = (Exited, mkSt (fs s) (S (next_tid s)),
                      located_events href geo_fp (next_tid s)
                        (min_x, min_y, max_x, max_y)
                        (proj max_y min_x) (proj min_y max_x)
                      ++ [EvPrint msg_extends; EvPrint msg_smaller])).
    { subst r.
      rewrite (main_body_located _ _ _ _ _ _ _ _ _ _ _ _ _ _
                 Hopen Hbounds Hproj Hul Hlr s). cbv zeta.
      by rewrite Hneg. }
    split_and!.
    + by rewrite Hr.
    + by rewrite Hr.
    + by rewrite Hr.
    + by rewrite Hr.
    + apply main_stops. fold r. by rewrite Hex.
  - intros H0 H1 H2 H3 Hex. apply Hexit, any_negative_four in Hex. lia.
Qed.

(** ** C2: the profile of the output *)

(** C2.  For an asset processed to completion, the file at its destination
    holds the block that was read and a profile whose width and height are
    the shape of that block, whose transform has the a, b, d, e of the
    asset's own transform, and whose two translation coefficients are the x
    and y of the upper-left projected corner. *)
Theorem C2_output_profile
    W geometry dst_dir href geo_fp min_x min_y max_x max_y proj r0 c0 r1 c1 s :
  w_remote W href = Some geo_fp ->
  bounds_of geometry = Some (min_x, min_y, max_x, max_y) ->
  w_proj W "epsg:4326" (ds_crs geo_fp) = Some proj ->
  index_of (ds_transform geo_fp) (proj max_y min_x).1 (proj max_y min_x).2
    = Some (r0, c0) ->
  index_of (ds_transform geo_fp) (proj min_y max_x).1 (proj min_y max_x).2
    = Some (r1, c1) ->
  let r := main_body W geometry dst_dir href s in
  outcome r = Ok tt ->
  profile geo_fp !! "transform" = Some (VAffine (ds_transform geo_fp)) /\
  exists file subset t,
    fs (final r) !! out_path dst_dir href = Some file /\
    rf_band1 file = Some subset /\
    rf_profile file !! "width" = Some (VInt (shape subset).2) /\
    rf_profile file !! "height" = Some (VInt (shape subset).1) /\
    rf_profile file !! "transform" = Some (VAffine t) /\
    af_a t = af_a (ds_transform geo_fp) /\
    af_b t = af_b (ds_transform geo_fp) /\
    af_d t = af_d (ds_transform geo_fp) /\
    af_e t = af_e (ds_transform geo_fp) /\
    af_c t = (proj max_y min_x).1 /\
    af_f t = (proj max_y min_x).2.
Proof.
  intros Hopen Hbounds Hproj Hul Hlr r Hok.
  split; [apply lookup_insert_eq|].
  destruct (main_body_completed _ _ _ _ _ _ _ _ _ _ _ _ _ _
              Hopen Hbounds Hproj Hul Hlr s Hok)
    as (px & _ & _ & _ & _ & Hr).
  subst r. rewrite Hr. unfold final. simpl.
  eexists _, _, _. rewrite lookup_insert_eq. split; [reflexivity|]. simpl.
  split; [reflexivity|]. unfold out_profile.
  rewrite lookup_insert_eq.
  rewrite !lookup_insert_ne, lookup_insert_eq by done.
  rewrite lookup_insert_ne, lookup_insert_eq by done.
  by split_and!.
Qed.

(** ** C3: the shape of the block that is read *)

Lemma from_slices_offsets r0 r1 c0 c1 :
  row_off (from_slices (r0, r1) (c0, c1)) = r0 /\
  col_off (from_slices (r0, r1) (c0, c1)) = c0 /\
  (r0 <= r1 -> r0 + win_height (from_slices (r0, r1) (c0, c1)) = r1) /\
  (c0 <= c1 -> c0 + win_width (from_slices (r0, r1) (c0, c1)) = c1).
Proof. unfold from_slices. simpl. lia. Qed.

Lemma read_block_shape px h w r0 r1 c0 c1 :
  0 <= r0 -> 0 <= c0 ->
  shape (read_block px h w (from_slices (r0, r1) (c0, c1)))
  = (Z.max 0 (Z.min (Z.max r0 r1) h) - Z.min r0 h,
     Z.max 0 (Z.min (Z.max c0 c1) w) - Z.min c0 w).
Proof.
  intros Hr Hc. unfold shape, read_block, crop, from_slices. simpl.
  f_equal; lia.
Qed.

(** The shape of a block is the shape of its data. *)
Lemma read_block_data px h w win :
  length (sb_data (read_block px h w win))
    = Z.to_nat (sb_height (read_block px h w win)) /\
  Forall (fun row => length row = Z.to_nat (sb_width (read_block px h w win)))
         (sb_data (read_block px h w win)).
Proof.
  unfold read_block. simpl. split.
  - by rewrite length_map, length_seqZ.
  - apply Forall_map, Forall_forall. intros r _. simpl.
    by rewrite length_map, length_seqZ.
Qed.

(** C3, as the code has it.  For an asset processed to completion with the
    pixel window (r0, r1, c0, c1), the four coordinates are non-negative and
    the block has the shape of the window clipped to the asset:
    h = max(0, min(max(r0, r1), height)) - min(r0, height), and w likewise.
    So h = r1 - r0 when r0 <= r1 <= height and w = c1 - c0 when
    c0 <= c1 <= width, while a window that reaches past the height or the
    width of the asset gives a smaller block. *)
Theorem C3_shape_is_clipped_window
    W geometry dst_dir href geo_fp min_x min_y max_x max_y proj r0 c0 r1 c1 s :
  w_remote W href = Some geo_fp ->
  bounds_of geometry = Some (min_x, min_y, max_x, max_y) ->
  w_proj W "epsg:4326" (ds_crs geo_fp) = Some proj ->
  index_of (ds_transform geo_fp) (proj max_y min_x).1 (proj max_y min_x).2
    = Some (r0, c0) ->
  index_of (ds_transform geo_fp) (proj min_y max_x).1 (proj min_y max_x).2
    = Some (r1, c1) ->
  let r := main_body W geometry dst_dir href s in
  outcome r = Ok tt ->
  exists subset,
    band_at (fs (final r)) (out_path dst_dir href) = Some subset /\
    (0 <= r0 /\ 0 <= c0 /\ 0 <= r1 /\ 0 <= c1) /\
    length (sb_data subset) = Z.to_nat (shape subset).1 /\
    Forall (fun row => length row = Z.to_nat (shape subset).2) (sb_data subset) /\
    shape subset
    = (Z.max 0 (Z.min (Z.max r0 r1) (ds_height geo_fp)) - Z.min r0 (ds_height geo_fp),
       Z.max 0 (Z.min (Z.max c0 c1) (ds_width geo_fp)) - Z.min c0 (ds_width geo_fp)) /\
    (r0 <= r1 <= ds_height geo_fp -> (shape subset).1 = r1 - r0) /\
    (c0 <= c1 <= ds_width geo_fp -> (shape subset).2 = c1 - c0) /\
    (0 <= ds_height geo_fp < r1 -> r0 < r1 -> (shape subset).1 < r1 - r0) /\
    (0 <= ds_width geo_fp < c1 -> c0 < c1 -> (shape subset).2 < c1 - c0).
Proof.
  intros Hopen Hbounds Hproj Hul Hlr r Hok.
  destruct (main_body_completed _ _ _ _ _ _ _ _ _ _ _ _ _ _
              Hopen Hbounds Hproj Hul Hlr s Hok)
    as (px & _ & Hneg & _ & _ & Hr).
  assert (Hpos : 0 <= r0 /\ 0 <= c0 /\ 0 <= r1 /\ 0 <= c1).
  { destruct (any_negative_four r0 c0 r1 c1) as [_ Hn].
    destruct (Z.lt_ge_cases r0 0), (Z.lt_ge_cases c0 0),
      (Z.lt_ge_cases r1 0), (Z.lt_ge_cases c1 0);
      try (rewrite Hn in Hneg by tauto; discriminate); lia. }
  subst r. rewrite Hr. unfold final, band_at. simpl.
  rewrite lookup_insert_eq. simpl.
  eexists. split; [reflexivity|]. split; [exact Hpos|].
  destruct (read_block_data px (ds_height geo_fp) (ds_width geo_fp)
              (from_slices (r0, r1) (c0, c1))) as [Hlen Hrows].
  split; [exact Hlen|]. split; [exact Hrows|].
  rewrite read_block_shape by lia. simpl.
  split; [reflexivity|]. lia.
Qed.

(** ** C4: the two corners and the window *)

(** [affine_invert] gives the inverse map: a pixel corner (col, row) sent to
    projected coordinates comes back as (row, col). *)
Lemma index_of_pixel_corner t (row col : Z) :
  ~ (affine_det t == 0)%Q ->
  index_of t (affine_apply t (inject_Z col) (inject_Z row)).1
             (affine_apply t (inject_Z col) (inject_Z row)).2
  = Some (row, col).
Proof.
  intros Hdet. unfold index_of, affine_invert.
  destruct (Qeq_bool (affine_det t) 0) eqn:Hb.
  { apply Qeq_bool_iff in Hb. contradiction. }
  unfold affine_apply. cbn [fst snd af_a af_b af_c af_d af_e af_f].
  f_equal. f_equal.
  - transitivity (Qfloor (inject_Z row)); [|apply Qfloor_Z].
    apply Qfloor_comp. unfold affine_det in *. field. exact Hdet.
  - transitivity (Qfloor (inject_Z col)); [|apply Qfloor_Z].
    apply Qfloor_comp. unfold affine_det in *. field. exact Hdet.
Qed.

(** C4.  For an asset whose geometry stage succeeds, the transformer is
    applied to exactly two points, (max_y, min_x) and then (min_y, max_x) of
    the bounding box; the two results, the upper-left and the lower-right
    corner, are each sent through the inverse affine map and [floor]; and the
    window that is read starts at the row and column of the upper-left
    corner and stops at the row and column of the lower-right corner. *)
Theorem C4_corners_and_window
    W geometry dst_dir href geo_fp min_x min_y max_x max_y proj r0 c0 r1 c1 s :
  w_remote W href = Some geo_fp ->
  bounds_of geometry = Some (min_x, min_y, max_x, max_y) ->
  w_proj W "epsg:4326" (ds_crs geo_fp) = Some proj ->
  index_of (ds_transform geo_fp) (proj max_y min_x).1 (proj max_y min_x).2
    = Some (r0, c0) ->
  index_of (ds_transform geo_fp) (proj min_y max_x).1 (proj min_y max_x).2
    = Some (r1, c1) ->
  let r := main_body W geometry dst_dir href s in
  let ul := proj max_y min_x in
  let lr := proj min_y max_x in
  filter (fun e => is_transform e = true) (events r)
    = [EvTransform (next_tid s) max_y min_x; EvTransform (next_tid s) min_y max_x] /\
  filter (fun e => is_index e = true) (events r)
    = [EvIndex ul.1 ul.2; EvIndex lr.1 lr.2] /\
  (exists inv,
     affine_invert (ds_transform geo_fp) = Some inv /\
     r0 = Qfloor (affine_apply inv ul.1 ul.2).2 /\
     c0 = Qfloor (affine_apply inv ul.1 ul.2).1 /\
     r1 = Qfloor (affine_apply inv lr.1 lr.2).2 /\
     c1 = Qfloor (affine_apply inv lr.1 lr.2).1) /\
  (outcome r <> Exited ->
     exists window,
       filter (fun e => is_read e = true) (events r) = [EvRead href 1 window] /\
       window = from_slices (r0, r1) (c0, c1) /\
       row_off window = r0 /\ col_off window = c0 /\
       (r0 <= r1 -> row_off window + win_height window = r1) /\
       (c0 <= c1 -> col_off window + win_width window = c1)).
Proof.
  intros Hopen Hbounds Hproj Hul Hlr r ul lr.
  assert (Hinv : exists inv,
     affine_invert (ds_transform geo_fp) = Some inv /\
     r0 = Qfloor (affine_apply inv ul.1 ul.2).2 /\
     c0 = Qfloor (affine_apply inv ul.1 ul.2).1 /\
     r1 = Qfloor (affine_apply inv lr.1 lr.2).2 /\
     c1 = Qfloor (affine_apply inv lr.1 lr.2).1).
  { unfold index_of in Hul, Hlr. subst ul lr.
    destruct (affine_invert (ds_transform geo_fp)) as [inv|]; [|done].
    exists inv.
    destruct (affine_apply inv (proj max_y min_x).1 (proj max_y min_x).2).
    destruct (affine_apply inv (proj min_y max_x).1 (proj min_y max_x).2).
    simpl. by simplify_eq. }
  subst r.
  rewrite (main_body_located _ _ _ _ _ _ _ _ _ _ _ _ _ _
             Hopen Hbounds Hproj Hul Hlr s). cbv zeta.
  pose proof (from_slices_offsets r0 r1 c0 c1) as (Hro & Hco & Hre & Hce).
  destruct (any_negative [r0; c0; r1; c1]).
  { split_and!; try done. }
  destruct (ds_band1 geo_fp) as [px|].
  2: { split_and!; try done. intros _. eexists. by split_and!. }
  destruct (w_create_fails W _ _).
  { split_and!; try done. intros _. eexists. by split_and!. }
  destruct (w_write_fails W _ _).
  { split_and!; try done. intros _. eexists. by split_and!. }
  split_and!; try done. intros _. eexists. by split_and!.
Qed.

(** ** Disk accesses of one iteration *)

(** The case analysis for a fact about one event of a literal trace. *)
Ltac in_cases H :=
  repeat (destruct H as [<-|H]; [simpl in *; try discriminate; auto|]);
  try (destruct H).

Lemma main_body_disk W geometry dst_dir href s :
  let r := main_body W geometry dst_dir href s in
  let p := out_path dst_dir href in
  (forall e, In e (events r) -> is_disk e = true ->
     e = EvCreate p \/ e = EvWrite p 1) /\
  (forall q, q <> p -> fs (final r) !! q = fs s !! q) /\
  (outcome r = Ok tt ->
     In (EvCreate p) (events r) /\ In (EvWrite p 1) (events r) /\
     exists f subset, fs (final r) !! p = Some f /\ rf_band1 f = Some subset) /\
  (outcome r = Exited \/ (exists e, outcome r = Raised e /\ e <> WriteError) ->
     fs (final r) = fs s /\ filter (fun e => is_disk e = true) (events r) = []).
Proof.
  intros r p. subst r p.
  body_cases W geometry dst_dir href;
    try (unfold outcome, final, events; simpl; split_and!;
         [ intros e Hin Hd; in_cases Hin | done | done | done ]).
  cbv zeta. unfold located_events.
  destruct (any_negative _).
  { unfold outcome, final, events; simpl. split_and!; try done.
    intros e Hin Hd; in_cases Hin. }
  destruct (ds_band1 ds) as [px|].
  2: { unfold outcome, final, events; simpl. split_and!; try done.
       intros e Hin Hd; in_cases Hin. }
  destruct (w_create_fails W _ _).
  { unfold outcome, final, events; simpl. split_and!; try done.
    - intros e Hin Hd; in_cases Hin.
    - intros [|(e & He & Hne)]; [done|]. by simplify_eq. }
  destruct (w_write_fails W _ _).
  { unfold outcome, final, events; simpl. split_and!; try done.
    - intros e Hin Hd; in_cases Hin.
    - intros q Hq. by rewrite lookup_insert_ne.
    - intros [|(e & He & Hne)]; [done|]. by simplify_eq. }
  unfold outcome, final, events; simpl. split_and!.
  - intros e Hin Hd; in_cases Hin.
  - intros q Hq. by rewrite lookup_insert_ne.
  - intros _. split_and!; [tauto | tauto |].
    eexists _, _. rewrite lookup_insert_eq. by split.
  - intros [|(e & He & Hne)]; done.
Qed.

(** ** C6: the path of the output *)

Lemma split_slash_nonempty s : split_slash s <> [].
Proof.
  destruct s as [|c rest]; simpl; [done|].
  destruct (Ascii.eqb c slash); [done|].
  by destruct (split_slash rest).
Qed.

(** [(p + "/" + q).split("/") = p.split("/") + q.split("/")]. *)
Lemma split_slash_app p q :
  split_slash (p +:+ String slash q) = split_slash p ++ split_slash q.
Proof.
  induction p as [|c p IH]; simpl.
  - done.
  - destruct (Ascii.eqb c slash); [by rewrite IH|].
    rewrite IH. pose proof (split_slash_nonempty p).
    by destruct (split_slash p).
Qed.

Lemma split_slash_no_slash seg : no_slash seg = true -> split_slash seg = [seg].
Proof.
  induction seg as [|c seg IH]; simpl; [done|].
  intros [Hc Hseg]%andb_true_iff.
  destruct (Ascii.eqb c slash); [done|]. by rewrite IH.
Qed.

Lemma last_segment_after_slash prefix seg :
  no_slash seg = true -> last_segment (prefix +:+ "/" +:+ seg) = seg.
Proof.
  intros Hseg. unfold last_segment.
  change ("/" +:+ seg) with (String slash seg).
  rewrite split_slash_app, (split_slash_no_slash seg) by done.
  apply List.last_last.
Qed.

Lemma path_join_plain a b :
  a <> EmptyString -> ends_with_slash a = false -> no_slash b = true ->
  path_join a b = a +:+ "/" +:+ b.
Proof.
  intros Ha Hend Hb. unfold path_join.
  assert (starts_with_slash b = false) as ->.
  { destruct b as [|c b]; simpl in *; [done|].
    by destruct (Ascii.eqb c slash). }
  rewrite Hend. destruct a; [done|]. done.
Qed.

(** C6.  For an asset whose URL is [prefix/seg], where [seg] holds no '/',
    the trailing segment that line 104 takes is [seg], and the destination is
    the destination directory joined with [seg], that is [dst_dir/seg] for a
    directory name that is not empty and does not end in '/'.  The
    iteration accesses the disk at that path only; when it completes, the
    output file is there. *)
Theorem C6_output_path W geometry dst_dir prefix seg s :
  no_slash seg = true ->
  let href := prefix +:+ "/" +:+ seg in
  let r := main_body W geometry dst_dir href s in
  last_segment href = seg /\
  out_path dst_dir href = path_join dst_dir seg /\
  (dst_dir <> EmptyString -> ends_with_slash dst_dir = false ->
     path_join dst_dir seg = dst_dir +:+ "/" +:+ seg) /\
  (forall e, In e (events r) -> is_disk e = true ->
     e = EvCreate (path_join dst_dir seg) \/ e = EvWrite (path_join dst_dir seg) 1) /\
  (forall q, q <> path_join dst_dir seg -> fs (final r) !! q = fs s !! q) /\
  (outcome r = Ok tt ->
     In (EvPrint ("Writing " +:+ path_join dst_dir seg)) (events r) /\
     exists f subset,
       fs (final r) !! path_join dst_dir seg = Some f /\ rf_band1 f = Some subset).
Proof.
  intros Hseg href r.
  assert (Hlast : last_segment href = seg) by by apply last_segment_after_slash.
  assert (Hpath : out_path dst_dir href = path_join dst_dir seg).
  { unfold out_path. by rewrite Hlast. }
  destruct (main_body_disk W geometry dst_dir href s) as (Hev & Hfs & Hok & _).
  rewrite Hpath in Hev, Hfs, Hok.
  split_and!; try done.
  - intros. by apply path_join_plain.
  - intros Hr. split; [|by apply Hok].
    subst r. clear Hev Hfs Hok. revert Hr.
    body_cases W geometry dst_dir href; try done.
    cbv zeta. rewrite Hpath.
    repeat (case_match; try done). intros _.
    unfold events. simpl. tauto.
Qed.

(** ** One iteration does not look at the state *)

(** What an iteration does to the disk and what it prints, reads and
    returns is the same from any state; only the identity of the
    transformer it builds depends on the allocator. *)
Lemma main_body_state_independent W geometry dst_dir href s1 s2 :
  let r1 := main_body W geometry dst_dir href s1 in
  let r2 := main_body W geometry dst_dir href s2 in
  let p := out_path dst_dir href in
  outcome r1 = outcome r2 /\
  map erase_tid (events r1) = map erase_tid (events r2) /\
  (next_tid s1 = next_tid s2 -> events r1 = events r2) /\
  ((fs (final r1) = fs s1 /\ fs (final r2) = fs s2 /\ outcome r1 <> Ok tt) \/
   exists f, fs (final r1) = <[p := f]> (fs s1) /\
             fs (final r2) = <[p := f]> (fs s2) /\
             (outcome r1 = Ok tt -> exists subset, rf_band1 f = Some subset)).
Proof.
  intros r1 r2 p. subst r1 r2 p.
  body_cases W geometry dst_dir href;
    try (unfold outcome, final, events; simpl; split_and!;
         [ done | done | by (intros Heq; try rewrite Heq) | by left ]).
  cbv zeta. unfold located_events.
  destruct (any_negative _).
  { unfold outcome, final, events; simpl. split_and!; try done.
    - by (intros Heq; try rewrite Heq).
    - by left. }
  destruct (ds_band1 ds) as [px|].
  2: { unfold outcome, final, events; simpl. split_and!; try done.
       - by (intros Heq; try rewrite Heq).
       - by left. }
  destruct (w_create_fails W _ _).
  { unfold outcome, final, events; simpl. split_and!; try done.
    - by (intros Heq; try rewrite Heq).
    - by left. }
  destruct (w_write_fails W _ _).
  { unfold outcome, final, events; simpl. split_and!; try done.
    - by (intros Heq; try rewrite Heq).
    - right. eexists. by split_and!. }
  unfold outcome, final, events; simpl. split_and!; try done.
  - by (intros Heq; try rewrite Heq).
  - right. eexists. split_and!; try done. intros _. by eexists.
Qed.

Lemma main_app W geometry dst_dir l1 l2 s :
  main W geometry dst_dir (l1 ++ l2) s =
    match main W geometry dst_dir l1 s with
    | (Ok _, s1, ev1) =>
        (outcome (main W geometry dst_dir l2 s1),
         final (main W geometry dst_dir l2 s1),
         ev1 ++ events (main W geometry dst_dir l2 s1))
    | (Exited, s1, ev1) => (Exited, s1, ev1)
    | (Raised e, s1, ev1) => (Raised e, s1, ev1)
    end.
Proof.
  revert s. induction l1 as [|h l1 IH]; intros s.
  - simpl. unfold ret. by destruct (main W geometry dst_dir l2 s) as [[r s2] ev2].
  - change ((h :: l1) ++ l2) with (h :: (l1 ++ l2)).
    rewrite !main_cons.
    destruct (main_body W geometry dst_dir h s) as [[[[]| |e] s1] ev1]; try done.
    rewrite IH. unfold outcome, final, events.
    destruct (main W geometry dst_dir l1 s1) as [[[[]| |e] s2] ev2]; simpl; try done.
    by rewrite app_assoc.
Qed.

(** ** C7: the output is a function of the inputs *)

(** C7.  One iteration run from two arbitrary states (two disks, two
    allocators) ends the same way, leaves the same trace up to the identity
    of the transformer object, and, when it completes, leaves the same file
    (profile and samples) at the destination.  Run a second time on the disk
    that the first run left, it completes again and the disk does not
    change. *)
Theorem C7_output_independent_of_state W geometry dst_dir href s1 s2 :
  let r1 := main_body W geometry dst_dir href s1 in
  let r2 := main_body W geometry dst_dir href s2 in
  let again := main_body W geometry dst_dir href (final r1) in
  let p := out_path dst_dir href in
  outcome r1 = outcome r2 /\
  map erase_tid (events r1) = map erase_tid (events r2) /\
  (outcome r1 = Ok tt ->
     (exists f subset,
        fs (final r1) !! p = Some f /\ fs (final r2) !! p = Some f /\
        rf_band1 f = Some subset) /\
     outcome again = Ok tt /\
     fs (final again) = fs (final r1)).
Proof.
  intros r1 r2 again p.
  destruct (main_body_state_independent W geometry dst_dir href s1 s2)
    as (Hout & Hev & _ & Hfs).
  split; [exact Hout|]. split; [exact Hev|].
  intros Hok. split.
  - destruct Hfs as [(_ & _ & Hne)|(f & Hf1 & Hf2 & Hband)]; [done|].
    destruct (Hband Hok) as [subset Hsub].
    exists f, subset. fold r1 in Hf1. fold r2 in Hf2. fold p in Hf1, Hf2.
    rewrite Hf1, Hf2, !lookup_insert_eq. done.
  - destruct (main_body_state_independent W geometry dst_dir href s1 (final r1))
      as (Hout' & _ & _ & Hfs').
    fold r1 again p in Hout', Hfs'.
    split; [by rewrite <- Hout'|].
    destruct Hfs' as [(_ & _ & Hne)|(f & Hf1 & Hf2 & _)]; [done|].
    rewrite Hf2, Hf1. apply insert_insert_eq.
Qed.

(** ** C9: an existing destination is replaced *)

(** C9.  Whether a file already exists at the destination makes no
    difference to how an iteration ends nor to its trace, so no failure and
    no diagnostic comes from it; when the iteration completes, the file it
    leaves there is the same as on a disk without the old file: the old
    content is replaced.  Two assets whose URLs have the same trailing
    segment have the same destination, and after a run over both the file
    there is the output of the second. *)
Theorem C9_existing_destination_replaced W geometry dst_dir href href2 s old :
  fs s !! out_path dst_dir href = Some old ->
  last_segment href2 = last_segment href ->
  let p := out_path dst_dir href in
  let r := main_body W geometry dst_dir href s in
  let r_absent :=
    main_body W geometry dst_dir href (mkSt (delete p (fs s)) (next_tid s)) in
  let both := main W geometry dst_dir [href; href2] s in
  (outcome r = outcome r_absent /\ events r = events r_absent) /\
  (outcome r = Ok tt ->
     exists f subset,
       fs (final r) !! p = Some f /\ fs (final r_absent) !! p = Some f /\
       rf_band1 f = Some subset) /\
  out_path dst_dir href2 = p /\
  (outcome both = Ok tt ->
     outcome r = Ok tt /\
     exists f2 subset2,
       fs (final both) !! p = Some f2 /\ rf_band1 f2 = Some subset2 /\
       fs (final (main_body W geometry dst_dir href2 s)) !! p = Some f2).
Proof.
  intros Hold Hseg p r r_absent both.
  destruct (main_body_state_independent W geometry dst_dir href s
              (mkSt (delete p (fs s)) (next_tid s)))
    as (Hout & _ & Hev & Hfs).
  fold r r_absent p in Hout, Hev, Hfs.
  assert (Hp2 : out_path dst_dir href2 = p).
  { unfold p, out_path. by rewrite Hseg. }
  split_and!.
  - exact Hout.
  - by apply Hev.
  - intros Hok.
    destruct Hfs as [(_ & _ & Hne)|(f & Hf1 & Hf2 & Hband)]; [done|].
    destruct (Hband Hok) as [subset Hsub].
    exists f, subset. by rewrite Hf1, Hf2, !lookup_insert_eq.
  - exact Hp2.
  - intros Hboth. subst both. revert Hboth.
    rewrite main_cons. fold r.
    destruct r as [[[[]| |e] s1] ev1] eqn:Hr; try done.
    cbv beta iota. rewrite main_cons.
    destruct (main_body_state_independent W geometry dst_dir href2 s1 s)
      as (Hout2 & _ & _ & Hfs2).
    rewrite Hp2 in Hfs2.
    destruct (main_body W geometry dst_dir href2 s1) as [[[[]| |e] s2] ev2] eqn:Hr2;
      try done.
    intros _. split; [done|].
    unfold outcome, final in *; simpl in *.
    destruct Hfs2 as [(_ & _ & Hne)|(f & Hf1 & Hf2 & Hband)]; [done|].
    destruct (Hband eq_refl) as [subset Hsub].
    exists f, subset. by rewrite Hf1, Hf2, !lookup_insert_eq.
Qed.

(** ** C10: what an aborted run leaves on the disk *)

(** C10, as the code has it.  When the first k-1 links are processed to
    completion and the k-th iteration does not complete, the run ends with
    the k-th iteration: the remaining links are not processed and nothing
    is rolled back.  Every path other than the destination of the k-th
    asset holds what the first k-1 iterations left; and when the iteration
    ended through [exit()] or with an error other than a write error, the
    whole disk is as the first k-1 iterations left it. *)
Theorem C10_abort_keeps_earlier_outputs W geometry dst_dir done href rest s :
  outcome (main W geometry dst_dir done s) = Ok tt ->
  let before := final (main W geometry dst_dir done s) in
  let body := main_body W geometry dst_dir href before in
  outcome body <> Ok tt ->
  let r := main W geometry dst_dir (done ++ href :: rest) s in
  outcome r = outcome body /\
  final r = final body /\
  events r = events (main W geometry dst_dir done s) ++ events body /\
  (forall q, q <> out_path dst_dir href -> fs (final r) !! q = fs before !! q) /\
  (outcome body = Exited \/ (exists e, outcome body = Raised e /\ e <> WriteError) ->
     fs (final r) = fs before).
Proof.
  intros Hdone before body Hbody r.
  assert (Hr : r = (outcome body, final body,
                    events (main W geometry dst_dir done s) ++ events body)).
  { subst r. rewrite main_app. subst before body.
    destruct (main W geometry dst_dir done s) as [[[[]| |e] s1] ev1]; try done.
    cbn [outcome final events fst snd] in *.
    rewrite main_stops by done.
    by destruct (main_body W geometry dst_dir href s1) as [[o s2] ev2]. }
  destruct (main_body_disk W geometry dst_dir href before) as (_ & Hfs & _ & Hkeep).
  fold body in Hfs, Hkeep.
  rewrite Hr. unfold outcome at 1, final at 1 2 3, events at 1. simpl.
  split_and!; try done.
  intros H. by apply Hkeep.
Qed.

(** ** C5: one transformer per asset *)

Lemma from_crs_ids_app ev1 ev2 :
  from_crs_ids (ev1 ++ ev2) = from_crs_ids ev1 ++ from_crs_ids ev2.
Proof. apply omap_app. Qed.

Lemma applications_app tid ev1 ev2 :
  applications tid (ev1 ++ ev2) = (applications tid ev1 + applications tid ev2)%nat.
Proof. unfold applications. by rewrite filter_app, length_app. Qed.

Lemma applications_pos tid x y ev :
  In (EvTransform tid x y) ev -> (0 < applications tid ev)%nat.
Proof.
  intros Hin. unfold applications.
  assert (He : EvTransform tid x y ∈ filter (fun e => applies tid e = true) ev).
  { apply list_elem_of_filter. split; [|by apply list_elem_of_In].
    simpl. apply Nat.eqb_refl. }
  destruct (filter _ ev); [by apply elem_of_nil in He | simpl; lia].
Qed.

Lemma applications_cons tid e ev :
  applications tid (e :: ev)
  = ((if applies tid e then 1 else 0) + applications tid ev)%nat.
Proof.
  unfold applications. rewrite filter_cons.
  destruct (applies tid e); by case_decide.
Qed.

Lemma applications_nil tid : applications tid [] = 0%nat.
Proof. done. Qed.

(** Counting the applications of [tid] in a literal trace. *)
Ltac count_applications s :=
  let tid := fresh "tid" in
  intros tid; rewrite ?applications_cons, applications_nil; simpl;
  by destruct (Nat.eqb (next_tid s) tid).

(** What one iteration does with transformers, from any state: either it
    ends before it builds one, or it builds exactly one, with a new identity,
    from EPSG:4326 to the CRS of the asset, and applies that one to exactly
    two points. *)
Lemma main_body_transformer W geometry dst_dir href s :
  let r := main_body W geometry dst_dir href s in
  (filter (fun e => is_from_crs e = true) (events r) = [] /\
   filter (fun e => is_transform e = true) (events r) = [] /\
   from_crs_ids (events r) = [] /\
   (forall tid, applications tid (events r) = 0%nat) /\
   next_tid (final r) = next_tid s /\
   outcome r <> Ok tt) \/
  (exists geo_fp x1 y1 x2 y2,
     w_remote W href = Some geo_fp /\
     filter (fun e => is_from_crs e = true) (events r)
       = [EvFromCrs (next_tid s) "epsg:4326" (ds_crs geo_fp)] /\
     filter (fun e => is_transform e = true) (events r)
       = [EvTransform (next_tid s) x1 y1; EvTransform (next_tid s) x2 y2] /\
     from_crs_ids (events r) = [next_tid s] /\
     (forall tid, applications tid (events r)
                  = if Nat.eqb (next_tid s) tid then 2%nat else 0%nat) /\
     next_tid (final r) = S (next_tid s)).
Proof.
  intros r. subst r.
  body_cases W geometry dst_dir href;
    try (left; unfold outcome, final, events; simpl; by split_and!).
  - right. exists ds. eexists _, _, _, _. split; [done|].
    cbv zeta. unfold located_events.
    repeat case_match; unfold outcome, final, events; simpl;
      (split_and!; [ reflexivity | reflexivity | reflexivity
                   | count_applications s
                   | reflexivity ]).
  - right. exists ds. eexists _, _, _, _. split; [done|].
    unfold outcome, final, events; simpl.
    split_and!; [ reflexivity | reflexivity | reflexivity
                | count_applications s
                | reflexivity ].
  - right. exists ds. eexists _, _, _, _. split; [done|].
    unfold outcome, final, events; simpl.
    split_and!; [ reflexivity | reflexivity | reflexivity
                | count_applications s
                | reflexivity ].
Qed.

(** Over a run, the transformers built are numbered consecutively from the
    allocator, and each of them is applied twice. *)
Lemma main_transformers W geometry dst_dir links s :
  let r := main W geometry dst_dir links s in
  (next_tid s <= next_tid (final r))%nat /\
  from_crs_ids (events r) = seq (next_tid s) (next_tid (final r) - next_tid s) /\
  (forall tid, applications tid (events r)
               = if decide (next_tid s <= tid < next_tid (final r))%nat
                 then 2%nat else 0%nat) /\
  (outcome r = Ok tt ->
   (next_tid (final r) - next_tid s)%nat = length links).
Proof.
  revert s. induction links as [|href rest IH]; intros s r; subst r.
  - unfold final, events, outcome. simpl. rewrite Nat.sub_diag.
    split_and!; try done. intros tid. case_decide; [lia | done].
  - rewrite main_cons.
    destruct (main_body_transformer W geometry dst_dir href s) as
      [(_ & _ & Hids & Happ & Hnext & Hout)
      |(ds & x1 & y1 & x2 & y2 & _ & _ & _ & Hids & Happ & Hnext)].
    + destruct (main_body W geometry dst_dir href s) as [[[[]| |e] s1] ev1];
        unfold outcome, final, events in *; simpl in Hids, Happ, Hnext, Hout |- *;
        try done.
      * rewrite Hnext, Nat.sub_diag, Hids. split_and!; try done.
        intros tid. rewrite Happ. case_decide; [lia | done].
      * rewrite Hnext, Nat.sub_diag, Hids. split_and!; try done.
        intros tid. rewrite Happ. case_decide; [lia | done].
    + destruct (main_body W geometry dst_dir href s) as [[[[]| |e] s1] ev1];
        unfold final, events in Hids, Happ, Hnext; simpl in Hids, Happ, Hnext.
      * specialize (IH s1). cbv zeta in IH.
        destruct (main W geometry dst_dir rest s1) as [[o s2] ev2].
        cbn [outcome final events fst snd] in *.
        destruct IH as (IHle & IHids & IHapp & IHlen).
        rewrite Hnext in *.
        split_and!.
        -- lia.
        -- rewrite from_crs_ids_app, Hids, IHids.
           replace (next_tid s2 - next_tid s)%nat
             with (S (next_tid s2 - S (next_tid s)))%nat by lia.
           done.
        -- intros tid. rewrite applications_app, Happ, IHapp.
           destruct (Nat.eqb (next_tid s) tid) eqn:E.
           ++ apply Nat.eqb_eq in E. repeat case_decide; lia.
           ++ apply Nat.eqb_neq in E. repeat case_decide; lia.
        -- intros Hok. cbn [length]. specialize (IHlen Hok). lia.
      * unfold outcome, final, events. cbn [fst snd]. rewrite Hnext, Hids.
        replace (S (next_tid s) - next_tid s)%nat with 1%nat by lia.
        split_and!; try done; [lia|].
        intros tid. rewrite Happ.
        destruct (Nat.eqb (next_tid s) tid) eqn:E.
        -- apply Nat.eqb_eq in E. case_decide; [done | lia].
        -- apply Nat.eqb_neq in E. case_decide; [lia | done].
      * unfold outcome, final, events. cbn [fst snd]. rewrite Hnext, Hids.
        replace (S (next_tid s) - next_tid s)%nat with 1%nat by lia.
        split_and!; try done; [lia|].
        intros tid. rewrite Happ.
        destruct (Nat.eqb (next_tid s) tid) eqn:E.
        -- apply Nat.eqb_eq in E. case_decide; [done | lia].
        -- apply Nat.eqb_neq in E. case_decide; [lia | done].
Qed.

(** C5.  From any state, an iteration that reaches line 66 builds exactly
    one transformer, with an identity that no earlier object has, from
    "epsg:4326" to the CRS of the asset it has opened, and applies that
    transformer, and no other, to exactly two points.  Over a run the
    transformers built have pairwise distinct identities, each one is
    applied exactly twice, no transformer from before the run is applied,
    and a run that completes has built one for every link. *)
Theorem C5_fresh_transformer_per_asset W geometry dst_dir links href s :
  let body := main_body W geometry dst_dir href s in
  let r := main W geometry dst_dir links s in
  ((filter (fun e => is_from_crs e = true) (events body) = [] /\
    filter (fun e => is_transform e = true) (events body) = [] /\
    outcome body <> Ok tt) \/
   (exists geo_fp x1 y1 x2 y2,
      w_remote W href = Some geo_fp /\
      filter (fun e => is_from_crs e = true) (events body)
        = [EvFromCrs (next_tid s) "epsg:4326" (ds_crs geo_fp)] /\
      filter (fun e => is_transform e = true) (events body)
        = [EvTransform (next_tid s) x1 y1; EvTransform (next_tid s) x2 y2] /\
      next_tid (final body) = S (next_tid s))) /\
  NoDup (from_crs_ids (events r)) /\
  (forall tid, In tid (from_crs_ids (events r)) ->
     (next_tid s <= tid)%nat /\ applications tid (events r) = 2%nat) /\
  (forall tid x y, In (EvTransform tid x y) (events r) ->
     In tid (from_crs_ids (events r))) /\
  (outcome r = Ok tt -> length (from_crs_ids (events r)) = length links).
Proof.
  intros body r.
  destruct (main_transformers W geometry dst_dir links s) as (Hle & Hids & Happ & Hlen).
  fold r in Hle, Hids, Happ, Hlen.
  split_and!.
  - destruct (main_body_transformer W geometry dst_dir href s) as
      [(H1 & H2 & _ & _ & _ & H3)|(ds & x1 & y1 & x2 & y2 & H1 & H2 & H3 & _ & _ & H4)].
    + left. by split_and!.
    + right. exists ds, x1, y1, x2, y2. by split_and!.
  - rewrite Hids. apply NoDup_seq.
  - intros tid Hin. rewrite Hids in Hin.
    apply list_elem_of_In, elem_of_seq in Hin.
    split; [lia|]. rewrite Happ. case_decide; [done | lia].
  - intros tid x y Hin. apply applications_pos in Hin.
    rewrite Happ in Hin. case_decide; [|lia].
    rewrite Hids. apply list_elem_of_In, elem_of_seq. lia.
  - intros Hok. rewrite Hids, length_seq. by apply Hlen.
Qed.

(** ** C8: where the bounding box is computed *)

Lemma bounds_computations_app ev1 ev2 :
  bounds_computations (ev1 ++ ev2)
  = (bounds_computations ev1 + bounds_computations ev2)%nat.
Proof. unfold bounds_computations. by rewrite filter_app, length_app. Qed.

Lemma observable_app ev1 ev2 :
  observable (ev1 ++ ev2) = observable ev1 ++ observable ev2.
Proof. apply filter_app. Qed.

(** Moving [bounds] out of an iteration changes neither its result nor its
    state, and removes one computation from its trace when the asset
    opens. *)
Lemma bind_open_bounds W geometry href bbox (K : Dataset -> BBox -> M unit) s :
  bounds_of geometry = Some bbox ->
  let r := bind (rasterio_open W href) (fun ds => bind (bounds geometry) (K ds)) s in
  let r' := bind (rasterio_open W href) (fun ds => K ds bbox) s in
  outcome r = outcome r' /\
  final r = final r' /\
  observable (events r) = observable (events r') /\
  bounds_computations (events r)
  = (match w_remote W href with Some _ => 1 | None => 0 end
     + bounds_computations (events r'))%nat.
Proof.
  intros Hb. cbv [bind rasterio_open bounds emit ret raise]. rewrite Hb.
  destruct (w_remote W href) as [ds|]; [|done].
  by destruct (K ds bbox s) as [[[[]| |e] s1] ev1].
Qed.

Lemma main_body_spec_body W geometry dst_dir href bbox s :
  bounds_of geometry = Some bbox ->
  let r := main_body W geometry dst_dir href s in
  let r' := spec_body W bbox dst_dir href s in
  outcome r = outcome r' /\
  final r = final r' /\
  observable (events r) = observable (events r') /\
  bounds_computations (events r)
  = (match w_remote W href with Some _ => 1 | None => 0 end
     + bounds_computations (events r'))%nat.
Proof.
  intros Hb. unfold main_body, spec_body.
  by apply (bind_open_bounds W geometry href bbox).
Qed.

Lemma main_spec_loop W geometry dst_dir links bbox s :
  bounds_of geometry = Some bbox ->
  let r := main W geometry dst_dir links s in
  let r' := spec_loop W bbox dst_dir links s in
  outcome r = outcome r' /\
  final r = final r' /\
  observable (events r) = observable (events r').
Proof.
  intros Hb. revert s. induction links as [|href rest IH]; intros s; [done|].
  cbv zeta. rewrite main_cons. simpl spec_loop. unfold bind.
  destruct (main_body_spec_body W geometry dst_dir href bbox s Hb) as (Ho & Hf & He & _).
  destruct (main_body W geometry dst_dir href s) as [[o1 s1] ev1].
  destruct (spec_body W bbox dst_dir href s) as [[o1' s1'] ev1'].
  cbn [outcome final events fst snd] in Ho, Hf, He. subst o1' s1'.
  destruct o1 as [[]| |e]; try done.
  specialize (IH s1). cbv zeta in IH. destruct IH as (IHo & IHf & IHe).
  destruct (main W geometry dst_dir rest s1) as [[o2 s2] ev2].
  destruct (spec_loop W bbox dst_dir rest s1) as [[o2' s2'] ev2'].
  cbn [outcome final events fst snd] in *.
  by rewrite !observable_app, He, IHe, IHo, IHf.
Qed.

(** What one iteration does with the bounding box. *)
Lemma main_body_bbox W geometry dst_dir href bbox s :
  bounds_of geometry = Some bbox ->
  let r := main_body W geometry dst_dir href s in
  bounds_computations (events r)
    = match w_remote W href with Some _ => 1%nat | None => 0%nat end /\
  (bounds_computations (events r) <= 1)%nat /\
  (outcome r = Ok tt -> bounds_computations (events r) = 1%nat) /\
  (forall tid x y, In (EvTransform tid x y) (events r) ->
     (x, y) = (bbox_3 bbox, bbox_0 bbox) \/ (x, y) = (bbox_1 bbox, bbox_2 bbox)).
Proof.
  intros Hb r. subst r.
  body_cases W geometry dst_dir href; simplify_eq;
    try (unfold outcome, events, bounds_computations; simpl; split_and!;
         [ done | lia | done | intros tid x y Hin;
           repeat (destruct Hin as [Heq|Hin]; [simplify_eq; auto|]); done ]).
  cbv zeta. unfold located_events.
  repeat case_match;
    (unfold outcome, events, bounds_computations; simpl; split_and!;
     [ done | lia | done | intros tid x y Hin;
           repeat (destruct Hin as [Heq|Hin]; [simplify_eq; auto|]); done ]).
Qed.

Lemma main_bbox W geometry dst_dir links bbox s :
  bounds_of geometry = Some bbox ->
  let r := main W geometry dst_dir links s in
  (bounds_computations (events r) <= length links)%nat /\
  (outcome r = Ok tt -> bounds_computations (events r) = length links) /\
  (forall tid x y, In (EvTransform tid x y) (events r) ->
     (x, y) = (bbox_3 bbox, bbox_0 bbox) \/ (x, y) = (bbox_1 bbox, bbox_2 bbox)).
Proof.
  intros Hb. revert s. induction links as [|href rest IH]; intros s.
  { cbv zeta. unfold outcome, events. simpl. by split_and!. }
  cbv zeta. rewrite main_cons.
  destruct (main_body_bbox W geometry dst_dir href bbox s Hb) as (_ & Hle & Hok & Htr).
  destruct (main_body W geometry dst_dir href s) as [[o1 s1] ev1].
  cbn [outcome final events fst snd] in Hle, Hok, Htr.
  destruct o1 as [[]| |e]; cbn [outcome final events fst snd length].
  - specialize (IH s1). cbv zeta in IH. destruct IH as (IHle & IHok & IHtr).
    destruct (main W geometry dst_dir rest s1) as [[o2 s2] ev2].
    cbn [outcome final events fst snd] in *.
    rewrite bounds_computations_app. split_and!.
    + lia.
    + intros Ho. rewrite Hok, IHok by done. done.
    + intros tid x y [Hin|Hin]%in_app_iff; eauto.
  - split_and!; [lia | done | done].
  - split_and!; [lia | done | done].
Qed.

(** The pipeline of the spec computes no bounding box inside its loop. *)
Lemma spec_loop_no_bounds W geometry dst_dir links bbox s :
  bounds_of geometry = Some bbox ->
  bounds_computations (events (spec_loop W bbox dst_dir links s)) = 0%nat.
Proof.
  intros Hb. revert s. induction links as [|href rest IH]; intros s; [done|].
  simpl spec_loop. unfold bind.
  destruct (main_body_spec_body W geometry dst_dir href bbox s Hb) as (_ & _ & _ & Hc).
  destruct (main_body_bbox W geometry dst_dir href bbox s Hb) as (Hn & _).
  rewrite Hn in Hc.
  destruct (spec_body W bbox dst_dir href s) as [[o1 s1] ev1].
  cbn [events snd] in Hc.
  assert (Hz : bounds_computations ev1 = 0%nat)
    by (destruct (w_remote W href); lia).
  destruct o1 as [[]| |e]; try done.
  specialize (IH s1).
  destruct (spec_loop W bbox dst_dir rest s1) as [[o2 s2] ev2].
  cbn [events snd] in *. rewrite bounds_computations_app. lia.
Qed.

(** C8, as the code has it.  Line 65 is inside the loop: the bounding box
    is computed once in every iteration that opens its asset, so as many
    times as there are links in a run that completes, and not at all when
    there is no link.  The geometry never changes, so every transformer of
    the run is applied to the corners of one and the same bounding box; and
    when the geometry has a bounding box, the run ends the same way, in the
    same state and with the same trace, the computations of the bounding box
    apart, as the pipeline that computes it once before the loop. *)
Theorem C8_bbox_per_asset_same_value W geometry dst_dir links bbox s :
  bounds_of geometry = Some bbox ->
  let r := main W geometry dst_dir links s in
  let r' := spec_main W geometry dst_dir links s in
  (outcome r = outcome r' /\
   final r = final r' /\
   observable (events r) = observable (events r')) /\
  bounds_computations (events r') = 1%nat /\
  (bounds_computations (events r) <= length links)%nat /\
  (outcome r = Ok tt -> bounds_computations (events r) = length links) /\
  (forall tid x y, In (EvTransform tid x y) (events r) ->
     (x, y) = (bbox_3 bbox, bbox_0 bbox) \/ (x, y) = (bbox_1 bbox, bbox_2 bbox)).
Proof.
  intros Hb r r'.
  destruct (main_spec_loop W geometry dst_dir links bbox s Hb) as (Ho & Hf & He).
  destruct (main_bbox W geometry dst_dir links bbox s Hb) as (Hle & Hok & Htr).
  pose proof (spec_loop_no_bounds W geometry dst_dir links bbox s Hb) as Hz.
  assert (Hr' : r' = (outcome (spec_loop W bbox dst_dir links s),
                      final (spec_loop W bbox dst_dir links s),
                      EvBounds :: events (spec_loop W bbox dst_dir links s))).
  { subst r'. unfold spec_main. cbv [bind bounds emit ret raise]. rewrite Hb.
    by destruct (spec_loop W bbox dst_dir links s) as [[o s1] ev1]. }
  fold r in Ho, Hf, He, Hle, Hok, Htr.
  rewrite Hr'. cbn [outcome final events fst snd].
  split_and!; try done.
  change (EvBounds :: events (spec_loop W bbox dst_dir links s))
    with ([EvBounds] ++ events (spec_loop W bbox dst_dir links s)).
  rewrite bounds_computations_app, Hz. done.
Qed.

(** C8, as it is stated, fails on a run over two assets: the bounding box
    is computed twice. *)
Lemma C8_counterexample_two_assets :
  ~ bbox_computed_once ex_world ex_geometry "out" [ex_href; ex_href_b] ex_state.
Proof. unfold bbox_computed_once. vm_compute. discriminate. Qed.

(** Without a bounding box the two pipelines differ: over no link the
    loop never looks at the geometry, while the pipeline of the spec
    raises. *)
Example empty_geometry_without_assets :
  outcome (main ex_world (LineString []) "out" [] ex_state) = Ok tt /\
  outcome (spec_main ex_world (LineString []) "out" [] ex_state)
    = Raised InvalidGeometryError.
Proof. split; reflexivity. Qed.

(** It is not computed at all in a run without assets. *)
Example bbox_not_computed_without_assets :
  bounds_computations (events (main ex_world ex_geometry "out" [] ex_state)) = 0%nat.
Proof. reflexivity. Qed.

(** ** The statements at concrete inputs *)

(** Scenario B of the spec: the upper-left corner projects to column -5. *)
Lemma C1_witness_west :
  w_remote ex_world ex_href = Some ex_asset /\
  bounds_of ex_geometry_west = Some (9.85, 45, 10.05, 45.03)%Q /\
  w_proj ex_world "epsg:4326" (ds_crs ex_asset) = Some ex_proj /\
  index_of (ds_transform ex_asset) (ex_proj 45.03 9.85).1 (ex_proj 45.03 9.85).2
    = Some (20, -5) /\
  index_of (ds_transform ex_asset) (ex_proj 45 10.05).1 (ex_proj 45 10.05).2
    = Some (23, 15) /\
  outcome (main_body ex_world ex_geometry_west "out" ex_href ex_state) = Exited /\
  main ex_world ex_geometry_west "out" [ex_href; ex_href_b] ex_state
    = main_body ex_world ex_geometry_west "out" ex_href ex_state.
Proof.
  assert (H1 : w_remote ex_world ex_href = Some ex_asset) by reflexivity.
  assert (H2 : bounds_of ex_geometry_west = Some (9.85, 45, 10.05, 45.03)%Q)
    by reflexivity.
  assert (H3 : w_proj ex_world "epsg:4326" (ds_crs ex_asset) = Some ex_proj)
    by reflexivity.
  assert (H4 : index_of (ds_transform ex_asset)
                 (ex_proj 45.03 9.85).1 (ex_proj 45.03 9.85).2 = Some (20, -5))
    by (vm_compute; reflexivity).
  assert (H5 : index_of (ds_transform ex_asset)
                 (ex_proj 45 10.05).1 (ex_proj 45 10.05).2 = Some (23, 15))
    by (vm_compute; reflexivity).
  destruct (C1_exit_iff_negative_pixel ex_world ex_geometry_west "out" ex_href
              ex_asset _ _ _ _ ex_proj 20 (-5) 23 15 [ex_href_b] ex_state
              H1 H2 H3 H4 H5) as ([_ Hneg] & Hexit & _).
  assert (Hex : outcome (main_body ex_world ex_geometry_west "out" ex_href ex_state)
                = Exited) by (apply Hneg; lia).
  split_and!; try assumption.
  apply (Hexit Hex).
Defined.

(** An area east of the asset: the lower-right column is 110 in an asset
    of width 100, and the run goes on to read and write. *)
Example large_pixel_is_accepted :
  index_of ex_transform (ex_proj 45 11).1 (ex_proj 45 11).2 = Some (23, 110) /\
  outcome (main_body ex_world ex_geometry_east "out" ex_href ex_state) = Ok tt.
Proof. split; vm_compute; reflexivity. Qed.

Lemma C2_witness :
  let r := main_body ex_world ex_geometry "out" ex_href ex_state in
  outcome r = Ok tt /\
  exists file subset t,
    fs (final r) !! "out/scene_band4.tif" = Some file /\
    rf_band1 file = Some subset /\
    rf_profile file !! "width" = Some (VInt (shape subset).2) /\
    rf_profile file !! "height" = Some (VInt (shape subset).1) /\
    rf_profile file !! "transform" = Some (VAffine t) /\
    (af_a t, af_b t, af_d t, af_e t) = (10, 0, 0, -10)%Q /\
    (af_c t, af_f t) = ex_proj 45.03 10.
Proof.
  intros r.
  assert (Hok : outcome r = Ok tt) by (vm_compute; reflexivity).
  split; [exact Hok|].
  destruct (C2_output_profile ex_world ex_geometry "out" ex_href ex_asset
              10 45 10.05 45.03 ex_proj 20 10 23 15 ex_state
              eq_refl eq_refl eq_refl eq_refl eq_refl Hok)
    as (_ & file & subset & t & Hf & Hb & Hw & Hh & Ht & Ha & Hbb & Hd & He & Hc & Hff).
  exists file, subset, t. split_and!; try assumption.
  - rewrite Ha, Hbb, Hd, He. reflexivity.
  - rewrite Hc, Hff. reflexivity.
Defined.

Lemma C3_witness_inside :
  let r := main_body ex_world ex_geometry "out" ex_href ex_state in
  outcome r = Ok tt /\
  20 <= 23 <= ds_height ex_asset /\ 10 <= 15 <= ds_width ex_asset /\
  exists subset,
    band_at (fs (final r)) "out/scene_band4.tif" = Some subset /\
    shape subset = (23 - 20, 15 - 10).
Proof.
  intros r.
  assert (Hok : outcome r = Ok tt) by (vm_compute; reflexivity).
  assert (Hr : 20 <= 23 <= ds_height ex_asset) by (simpl; lia).
  assert (Hc : 10 <= 15 <= ds_width ex_asset) by (simpl; lia).
  split; [exact Hok|]. split; [exact Hr|]. split; [exact Hc|].
  destruct (C3_shape_is_clipped_window ex_world ex_geometry "out" ex_href ex_asset
              10 45 10.05 45.03 ex_proj 20 10 23 15 ex_state
              eq_refl eq_refl eq_refl eq_refl eq_refl Hok)
    as (subset & Hb & _ & _ & _ & _ & Hh & Hw & _).
  exists subset. split; [exact Hb|].
  destruct (shape subset) as [h w]. simpl in Hh, Hw.
  by rewrite (Hh Hr), (Hw Hc).
Defined.

(** C3, as it is stated, fails for a window that reaches past the width of
    the asset: the pixel window is (20, 23, 10, 110), the asset is 100
    columns wide, and the block that is read and written has shape (3, 90),
    not (3, 100). *)
Lemma C3_counterexample_east :
  ~ shape_is_window_extent ex_world ex_geometry_east "out" ex_href ex_state.
Proof.
  intros Hstated.
  specialize (Hstated ex_asset 10%Q 45%Q 11%Q 45.03%Q ex_proj 20 10 23 110
                (read_block (fun r c => r * 100 + c) 100 100
                            (from_slices (20, 23) (10, 110)))).
  assert (Hshape : (3, 90) = (23 - 20, 110 - 10)); [|discriminate Hshape].
  apply Hstated; vm_compute; reflexivity.
Qed.

Lemma C4_witness :
  let r := main_body ex_world ex_geometry "out" ex_href ex_state in
  bounds_of ex_geometry = Some (10, 45, 10.05, 45.03)%Q /\
  filter (fun e => is_transform e = true) (events r)
    = [EvTransform 0 45.03 10; EvTransform 0 45 10.05] /\
  filter (fun e => is_read e = true) (events r)
    = [EvRead ex_href 1 (mkWindow 10 20 5 3)].
Proof.
  intros r.
  assert (Hb : bounds_of ex_geometry = Some (10, 45, 10.05, 45.03)%Q) by reflexivity.
  split; [exact Hb|].
  destruct (C4_corners_and_window ex_world ex_geometry "out" ex_href ex_asset
              10 45 10.05 45.03 ex_proj 20 10 23 15 ex_state
              eq_refl Hb eq_refl eq_refl eq_refl)
    as (Htr & _ & _ & Hread).
  split; [exact Htr|].
  destruct Hread as (window & Hev & Hw & _).
  { vm_compute. discriminate. }
  fold r in Hev. rewrite Hev, Hw. reflexivity.
Defined.

(** Scenario D of the spec. *)
Lemma C6_witness_scene_band4 :
  no_slash "scene_band4.tif" = true /\
  last_segment "https://h/a/scene_band4.tif" = "scene_band4.tif" /\
  out_path "out" "https://h/a/scene_band4.tif" = "out/scene_band4.tif" /\
  is_Some (fs (final (main_body ex_world ex_geometry "out"
                        "https://h/a/scene_band4.tif" ex_state))
           !! "out/scene_band4.tif").
Proof.
  assert (Hseg : no_slash "scene_band4.tif" = true) by reflexivity.
  destruct (C6_output_path ex_world ex_geometry "out" "https://h/a"
              "scene_band4.tif" ex_state Hseg)
    as (Hlast & Hpath & Hplain & _ & _ & Hok).
  split_and!.
  - exact Hseg.
  - exact Hlast.
  - etransitivity; [exact Hpath|].
    apply Hplain; [discriminate | reflexivity].
  - destruct Hok as (_ & f & subset & Hf & _); [vm_compute; reflexivity|].
    exists f. exact Hf.
Defined.

Lemma C8_witness :
  let r := main ex_world ex_geometry "out" [ex_href; ex_href_b] ex_state in
  let r' := spec_main ex_world ex_geometry "out" [ex_href; ex_href_b] ex_state in
  bounds_of ex_geometry = Some (10, 45, 10.05, 45.03)%Q /\
  outcome r = outcome r' /\ final r = final r' /\
  observable (events r) = observable (events r') /\
  bounds_computations (events r') = 1%nat /\
  bounds_computations (events r) = 2%nat.
Proof.
  intros r r'.
  assert (Hb : bounds_of ex_geometry = Some (10, 45, 10.05, 45.03)%Q) by reflexivity.
  destruct (C8_bbox_per_asset_same_value ex_world ex_geometry "out"
              [ex_href; ex_href_b] _ ex_state Hb)
    as ((Ho & Hf & He) & Hone & _ & Hn & _).
  split_and!; try assumption.
  apply Hn. vm_compute. reflexivity.
Defined.

Lemma C9_witness :
  let r := main_body ex_world ex_geometry "out" ex_href ex_state_old in
  let both := main ex_world ex_geometry "out" [ex_href; ex_href_b] ex_state_old in
  fs ex_state_old !! out_path "out" ex_href = Some (mkFile ex_meta None) /\
  last_segment ex_href_b = last_segment ex_href /\
  outcome r = Ok tt /\
  out_path "out" ex_href_b = out_path "out" ex_href /\
  exists f2,
    fs (final both) !! "out/scene_band4.tif" = Some f2 /\
    fs (final (main_body ex_world ex_geometry "out" ex_href_b ex_state_old))
      !! "out/scene_band4.tif" = Some f2.
Proof.
  intros r both.
  assert (Hold : fs ex_state_old !! out_path "out" ex_href
                 = Some (mkFile ex_meta None)) by (vm_compute; reflexivity).
  assert (Hseg : last_segment ex_href_b = last_segment ex_href) by reflexivity.
  destruct (C9_existing_destination_replaced ex_world ex_geometry "out"
              ex_href ex_href_b ex_state_old _ Hold Hseg)
    as (_ & _ & Hpath & Hboth).
  destruct Hboth as (Hok & f2 & subset2 & Hf & _ & Hf2); [vm_compute; reflexivity|].
  split_and!; try assumption.
  exists f2. split; assumption.
Defined.

Lemma C10_witness_exit_at_second :
  let done := [ex_href] in
  let before := final (main ex_world ex_geometry_mid "out" done ex_state) in
  let r := main ex_world ex_geometry_mid "out" [ex_href; ex_href_b; ex_href] ex_state in
  outcome (main ex_world ex_geometry_mid "out" done ex_state) = Ok tt /\
  outcome (main_body ex_world ex_geometry_mid "out" ex_href_b before) = Exited /\
  outcome r = Exited /\
  fs (final r) = fs before /\
  is_Some (band_at (fs (final r)) "out/scene_band4.tif").
Proof.
  intros done before r.
  assert (Hdone : outcome (main ex_world ex_geometry_mid "out" done ex_state) = Ok tt)
    by (vm_compute; reflexivity).
  assert (Hexit : outcome (main_body ex_world ex_geometry_mid "out" ex_href_b before)
                  = Exited) by (vm_compute; reflexivity).
  destruct (C10_abort_keeps_earlier_outputs ex_world ex_geometry_mid "out"
              done ex_href_b [ex_href] ex_state Hdone)
    as (Ho & _ & _ & _ & Hkeep).
  { fold before. rewrite Hexit. discriminate. }
  split_and!.
  - exact Hdone.
  - exact Hexit.
  - etransitivity; [exact Ho | exact Hexit].
  - exact (Hkeep (or_introl Hexit)).
  - vm_compute. eexists. reflexivity.
Defined.

(** C10, as it is stated, fails when the k-th asset has the destination of
    an earlier one and its write fails: the first asset leaves its output
    at out/scene_band4.tif, the second one has the same file name, its
    [rasterio.open(..., "w")] replaces the file and its [dst.write] fails on
    a full disk, so the run is aborted and the output of the first asset is
    gone. *)
Lemma C10_counterexample_same_name :
  ~ earlier_outputs_unchanged ex_world_full ex_geometry "out"
      [ex_href] ex_href_b [] ex_state.
Proof.
  intros Hstated. unfold earlier_outputs_unchanged in Hstated.
  assert (Hdone : outcome (main ex_world_full ex_geometry "out" [ex_href] ex_state)
                  = Ok tt) by (vm_compute; reflexivity).
  specialize (Hstated Hdone).
  assert (Hfail : outcome (main_body ex_world_full ex_geometry "out" ex_href_b
                     (final (main ex_world_full ex_geometry "out" [ex_href] ex_state)))
                  <> Ok tt) by (vm_compute; discriminate).
  specialize (Hstated Hfail ex_href (or_introl eq_refl)).
  apply (f_equal (fun o => match o with Some f => rf_band1 f | None => None end))
    in Hstated.
  vm_compute in Hstated. discriminate Hstated.
Qed.

(** The same run, spelled out. *)
Example write_error_replaces_earlier_output :
  let after_first := final (main ex_world_full ex_geometry "out" [ex_href] ex_state) in
  let r := main ex_world_full ex_geometry "out" [ex_href; ex_href_b] ex_state in
  option_map sb_data (band_at (fs after_first) "out/scene_band4.tif")
    = Some [[2010; 2011; 2012; 2013; 2014];
            [2110; 2111; 2112; 2113; 2114];
            [2210; 2211; 2212; 2213; 2214]] /\
  outcome r = Raised WriteError /\
  band_at (fs (final r)) "out/scene_band4.tif" = None /\
  is_Some (fs (final r) !! "out/scene_band4.tif").
Proof.
  split_and!; try (vm_compute; reflexivity).
  vm_compute. eexists. reflexivity.
Qed.

(** * Further properties of [main] *)

(** ** The output keeps the profile and the samples of the source *)

(** X1.  For an asset processed to completion, line 89 copies the profile
    of the source and lines 90-101 replace its width, height and transform
    only: every other key of the output profile, the CRS among them, has
    the value it has in the source. *)
Theorem X1_profile_keys_preserved W geometry dst_dir href geo_fp s :
  w_remote W href = Some geo_fp ->
  let r := main_body W geometry dst_dir href s in
  outcome r = Ok tt ->
  exists file,
    fs (final r) !! out_path dst_dir href = Some file /\
    (forall key, key <> "width" -> key <> "height" -> key <> "transform" ->
       rf_profile file !! key = profile geo_fp !! key) /\
    rf_profile file !! "crs" = Some (VStr (ds_crs geo_fp)).
Proof.
  intros Hopen' r. subst r.
  body_cases W geometry dst_dir href; try done. simplify_eq.
  cbv zeta. repeat (case_match; try done). intros _.
  unfold final. simpl. rewrite lookup_insert_eq.
  eexists. split; [reflexivity|]. simpl. unfold out_profile. split.
  - intros key Hw Hh Ht. by rewrite !lookup_insert_ne.
  - rewrite !lookup_insert_ne by done. unfold profile.
    rewrite lookup_insert_ne by done. apply lookup_insert_eq.
Qed.

Lemma lookup_map {A B} (f : A -> B) (l : list A) (i : nat) :
  map f l !! i = f <$> l !! i.
Proof. revert i. induction l as [|x l IH]; intros [|i]; simpl; auto. Qed.

(** The sample of a block at row [i] and column [j]. *)
Lemma read_block_sample px h w win (i j : nat) :
  Z.of_nat i < sb_height (read_block px h w win) ->
  Z.of_nat j < sb_width (read_block px h w win) ->
  (sb_data (read_block px h w win) !! i) ≫= (fun row => row !! j)
  = Some (px (row_off (crop win h w) + Z.of_nat i)
             (col_off (crop win h w) + Z.of_nat j)).
Proof.
  unfold read_block. cbn [sb_height sb_width sb_data]. intros Hi Hj.
  rewrite lookup_map, lookup_seqZ_lt by done. simpl.
  by rewrite lookup_map, lookup_seqZ_lt by done.
Qed.

(** X2.  For an asset processed to completion with the pixel window
    (r0, r1, c0, c1), the samples written are the samples of band 1 of the
    source, unchanged and in place: row i, column j of the output is the
    source sample at row min(r0, height) + i and column min(c0, width) + j,
    which is (r0 + i, c0 + j) when the window starts inside the asset. *)
Theorem X2_samples_are_source_samples
    W geometry dst_dir href geo_fp min_x min_y max_x max_y proj r0 c0 r1 c1 s :
  w_remote W href = Some geo_fp ->
  bounds_of geometry = Some (min_x, min_y, max_x, max_y) ->
  w_proj W "epsg:4326" (ds_crs geo_fp) = Some proj ->
  index_of (ds_transform geo_fp) (proj max_y min_x).1 (proj max_y min_x).2
    = Some (r0, c0) ->
  index_of (ds_transform geo_fp) (proj min_y max_x).1 (proj min_y max_x).2
    = Some (r1, c1) ->
  let r := main_body W geometry dst_dir href s in
  outcome r = Ok tt ->
  exists px subset,
    ds_band1 geo_fp = Some px /\
    band_at (fs (final r)) (out_path dst_dir href) = Some subset /\
    forall i j : nat,
      Z.of_nat i < sb_height subset -> Z.of_nat j < sb_width subset ->
      (sb_data subset !! i) ≫= (fun row => row !! j)
      = Some (px (Z.min r0 (ds_height geo_fp) + Z.of_nat i)
                 (Z.min c0 (ds_width geo_fp) + Z.of_nat j)).
Proof.
  intros Hopen Hbounds Hproj Hul Hlr r Hok.
  destruct (main_body_completed _ _ _ _ _ _ _ _ _ _ _ _ _ _
              Hopen Hbounds Hproj Hul Hlr s Hok)
    as (px & Hpx & Hneg & _ & _ & Hr).
  assert (Hpos : 0 <= r0 /\ 0 <= c0).
  { destruct (any_negative_four r0 c0 r1 c1) as [_ Hn].
    destruct (Z.lt_ge_cases r0 0), (Z.lt_ge_cases c0 0);
      try (rewrite Hn in Hneg by tauto; discriminate); lia. }
  subst r. rewrite Hr. unfold final, band_at. simpl.
  rewrite lookup_insert_eq. simpl.
  exists px. eexists. split; [exact Hpx|]. split; [reflexivity|].
  intros i j Hi Hj. rewrite read_block_sample by done.
  unfold crop, from_slices. simpl. do 2 f_equal; lia.
Qed.

(** ** Windows that hold no pixel *)



(** ** Where a run writes *)

Lemma split_slash_no_slashes s : Forall (fun x => no_slash x = true) (split_slash s).
Proof.
  induction s as [|c s IH]; simpl; [by repeat constructor|].
  destruct (Ascii.eqb c slash) eqn:E; [by constructor|].
  destruct (split_slash s) as [|h t].
  { repeat constructor. simpl. by rewrite E. }
  inversion_clear IH. constructor; [|done]. simpl. by rewrite E.
Qed.

Lemma join_split_slash s : join_slash (split_slash s) = s.
Proof.
  induction s as [|c s IH]; [done|]. simpl.
  destruct (Ascii.eqb c slash) eqn:E.
  - apply Ascii.eqb_eq in E. subst c.
    pose proof (split_slash_nonempty s).
    destruct (split_slash s) as [|h t] eqn:Hs; [done|].
    change (join_slash (EmptyString :: h :: t))
      with (String slash (join_slash (h :: t))).
    by rewrite IH.
  - pose proof (split_slash_nonempty s).
    destruct (split_slash s) as [|h t] eqn:Hs; [done|].
    destruct t as [|h' t]; simpl in *; by rewrite <- IH.
Qed.

Lemma string_app_assoc (a b c : string) : (a +:+ b) +:+ c = a +:+ b +:+ c.
Proof.
  induction a as [|x a IH]; [done|].
  change (String x ((a +:+ b) +:+ c) = String x (a +:+ b +:+ c)).
  by rewrite IH.
Qed.

Lemma join_slash_snoc l x :
  l <> [] -> join_slash (l ++ [x]) = join_slash l +:+ "/" +:+ x.
Proof.
  induction l as [|a l IH]; [done|]. intros _.
  destruct l as [|b l]; [done|].
  change (join_slash ((a :: b :: l) ++ [x]))
    with (a +:+ "/" +:+ join_slash ((b :: l) ++ [x])).
  rewrite IH by done.
  change (join_slash (a :: b :: l)) with (a +:+ "/" +:+ join_slash (b :: l)).
  by rewrite !string_app_assoc.
Qed.

Lemma starts_with_app p s : starts_with p (p +:+ s) = true.
Proof.
  induction p as [|c p IH]; [done|].
  change (String c p +:+ s) with (String c (p +:+ s)). simpl.
  by rewrite Ascii.eqb_refl.
Qed.

Lemma out_path_prefix dst_dir href :
  out_path dst_dir href = dst_dir +:+ "/" +:+ last_segment href \/
  out_path dst_dir href = dst_dir +:+ last_segment href.
Proof.
  unfold out_path, path_join.
  destruct (starts_with_slash (last_segment href)) eqn:Hs.
  - pose proof (split_slash_no_slashes href) as Hall.
    pose proof (split_slash_nonempty href) as Hne.
    unfold last_segment in Hs.
    destruct (exists_last Hne) as (l & x & Hl). rewrite Hl in *.
    rewrite List.last_last in Hs.
    apply Forall_app in Hall as [_ Hx]. inversion_clear Hx as [|?? Hx' _].
    destruct x as [|c x]; simpl in *; [done|].
    by destruct (Ascii.eqb c slash).
  - destruct (String.eqb dst_dir EmptyString || ends_with_slash dst_dir); auto.
Qed.

(** X4.  For every URL, the name that line 104 takes is the part of the URL
    after its last '/', the whole URL when it has none: it holds no '/' and
    the URL is that name, or a prefix, a '/' and that name.  The
    destination is the destination directory, then '/' or nothing, then
    that name; so it starts with the destination directory and no
    directory of the URL is carried over. *)
Theorem X4_destination_below_dst_dir dst_dir href :
  no_slash (last_segment href) = true /\
  (href = last_segment href \/
   exists prefix, href = prefix +:+ "/" +:+ last_segment href) /\
  (out_path dst_dir href = dst_dir +:+ "/" +:+ last_segment href \/
   out_path dst_dir href = dst_dir +:+ last_segment href) /\
  starts_with dst_dir (out_path dst_dir href) = true.
Proof.
  pose proof (split_slash_nonempty href) as Hne.
  pose proof (split_slash_no_slashes href) as Hall.
  pose proof (join_split_slash href) as Hjoin.
  unfold last_segment.
  destruct (exists_last Hne) as (l & x & Hl). rewrite Hl in *.
  rewrite List.last_last.
  assert (Hx : no_slash x = true).
  { apply Forall_app in Hall as [_ Hx]. by inversion Hx. }
  assert (Hpath : out_path dst_dir href = dst_dir +:+ "/" +:+ x \/
                  out_path dst_dir href = dst_dir +:+ x).
  { unfold out_path, last_segment. rewrite Hl, List.last_last. unfold path_join.
    assert (starts_with_slash x = false) as ->.
    { destruct x as [|c x]; simpl in *; [done|].
      by destruct (Ascii.eqb c slash). }
    destruct (String.eqb dst_dir EmptyString || ends_with_slash dst_dir); auto. }
  split_and!.
  - exact Hx.
  - destruct l as [|a l]; [left; by rewrite <- Hjoin|].
    right. exists (join_slash (a :: l)).
    by rewrite <- Hjoin, join_slash_snoc.
  - exact Hpath.
  - destruct Hpath as [-> | ->]; apply starts_with_app.
Qed.

Lemma main_ok_cons W geometry dst_dir href rest s :
  outcome (main W geometry dst_dir (href :: rest) s) = Ok tt ->
  outcome (main_body W geometry dst_dir href s) = Ok tt /\
  outcome (main W geometry dst_dir rest
             (final (main_body W geometry dst_dir href s))) = Ok tt /\
  final (main W geometry dst_dir (href :: rest) s)
  = final (main W geometry dst_dir rest
             (final (main_body W geometry dst_dir href s))).
Proof.
  rewrite main_cons.
  destruct (main_body W geometry dst_dir href s) as [[[[]| |e] s1] ev1]; done.
Qed.

Lemma main_final_cons W geometry dst_dir href rest s :
  fs (final (main W geometry dst_dir (href :: rest) s))
  = match outcome (main_body W geometry dst_dir href s) with
    | Ok _ => fs (final (main W geometry dst_dir rest
                           (final (main_body W geometry dst_dir href s))))
    | _ => fs (final (main_body W geometry dst_dir href s))
    end.
Proof.
  rewrite main_cons.
  destruct (main_body W geometry dst_dir href s) as [[[[]| |e] s1] ev1]; done.
Qed.

Lemma main_frame W geometry dst_dir links s q :
  ~ In q (destinations dst_dir links) ->
  fs (final (main W geometry dst_dir links s)) !! q = fs s !! q.
Proof.
  revert s. induction links as [|href rest IH]; intros s Hq; [done|].
  simpl in Hq. rewrite main_final_cons.
  destruct (main_body_disk W geometry dst_dir href s) as (_ & Hfs & _).
  destruct (outcome (main_body W geometry dst_dir href s)).
  - rewrite IH by tauto. apply Hfs. intros ->. tauto.
  - apply Hfs. intros ->. tauto.
  - apply Hfs. intros ->. tauto.
Qed.

(** X5.  A run, however it ends, leaves every path that is not the
    destination of one of its links as it found it: no other file is
    created, replaced or removed.  The paths it may touch all start with
    the destination directory. *)
Theorem X5_run_touches_destinations_only W geometry dst_dir links s :
  (forall q, ~ In q (destinations dst_dir links) ->
     fs (final (main W geometry dst_dir links s)) !! q = fs s !! q) /\
  (forall q, starts_with dst_dir q = false ->
     fs (final (main W geometry dst_dir links s)) !! q = fs s !! q).
Proof.
  split; [intros q; apply main_frame|].
  intros q Hq. apply main_frame.
  intros (h & <- & _)%in_map_iff.
  destruct (out_path_prefix dst_dir h) as [Hp | Hp]; rewrite Hp in Hq;
    by rewrite starts_with_app in Hq.
Qed.



(** ** What a run asks of the remote assets *)

Lemma main_body_opens W geometry dst_dir href s :
  filter (fun e => is_open e = true) (events (main_body W geometry dst_dir href s))
  = [EvOpen href].
Proof.
  body_cases W geometry dst_dir href; try done.
  cbv zeta. by repeat case_match.
Qed.

(** X7.  A run opens the links one at a time, in the order of the list and
    never twice for one occurrence: the assets opened are the first n
    links, with n the number of links when the run completes and the
    position of the link that ended it otherwise.  No link after that one
    is opened, and no failed open is tried again. *)
Theorem X7_links_opened_once_in_order W geometry dst_dir links s :
  let r := main W geometry dst_dir links s in
  exists n,
    (n <= length links)%nat /\
    filter (fun e => is_open e = true) (events r) = map EvOpen (take n links) /\
    (outcome r = Ok tt -> n = length links) /\
    (outcome r <> Ok tt -> (0 < n)%nat).
Proof.
  revert s. induction links as [|href rest IH]; intros s r; subst r.
  { exists 0%nat. by split_and!. }
  rewrite main_cons.
  pose proof (main_body_opens W geometry dst_dir href s) as Hopen.
  destruct (main_body W geometry dst_dir href s) as [[[[]| |e] s1] ev1];
    cbn [events snd] in Hopen.
  - destruct (IH s1) as (n & Hn & Hev & Hok & Hne).
    exists (S n). cbn [outcome final events fst snd length].
    rewrite filter_app, Hopen, Hev. split_and!; [lia | done | | lia].
    intros Ho. by rewrite Hok.
  - exists 1%nat. cbn [outcome events fst snd length]. split_and!; try done; lia.
  - exists 1%nat. cbn [outcome events fst snd length]. split_and!; try done; lia.
Qed.

Lemma main_body_band_one W geometry dst_dir href s e :
  In e (events (main_body W geometry dst_dir href s)) ->
  match e with
  | EvRead h band _ => h = href /\ band = 1
  | EvWrite p band => p = out_path dst_dir href /\ band = 1
  | EvCreate p => p = out_path dst_dir href
  | _ => True
  end.
Proof.
  body_cases W geometry dst_dir href;
    try (unfold events; simpl; intros Hin; by in_cases Hin).
  cbv zeta. unfold located_events.
  destruct (any_negative _);
    [|destruct (ds_band1 ds);
      [destruct (w_create_fails W _ _); [|destruct (w_write_fails W _ _)]|]];
    unfold events; simpl; intros Hin; by in_cases Hin.
Qed.

(** X8.  A run reads band 1 and writes band 1, and nothing else: every
    read is [read(1, ...)] on one of the links, every file created is at the
    destination of one of the links, and every write is [write(..., 1)]
    into such a file.  The other bands of an asset are never requested. *)
Theorem X8_only_band_one W geometry dst_dir links s e :
  In e (events (main W geometry dst_dir links s)) ->
  match e with
  | EvRead h band _ => In h links /\ band = 1
  | EvWrite p band => In p (destinations dst_dir links) /\ band = 1
  | EvCreate p => In p (destinations dst_dir links)
  | _ => True
  end.
Proof.
  revert s. induction links as [|href rest IH]; intros s; [done|].
  rewrite main_cons.
  pose proof (main_body_band_one W geometry dst_dir href s e) as Hbody.
  assert (Hhere : In e (events (main_body W geometry dst_dir href s)) ->
                  match e with
                  | EvRead h band _ => In h (href :: rest) /\ band = 1
                  | EvWrite p band =>
                      In p (destinations dst_dir (href :: rest)) /\ band = 1
                  | EvCreate p => In p (destinations dst_dir (href :: rest))
                  | _ => True
                  end).
  { intros Hin. specialize (Hbody Hin).
    destruct e; try done; simpl; intuition auto. }
  destruct (main_body W geometry dst_dir href s) as [[[[]| |err] s1] ev1];
    cbn [events snd] in *; try done.
  intros [Hin|Hin]%in_app_iff; [by apply Hhere|].
  specialize (IH s1 Hin). destruct e; try done; simpl; intuition auto.
Qed.

(** ** The order of the links *)

Lemma main_body_ok_written W geometry dst_dir href s :
  outcome (main_body W geometry dst_dir href s) = Ok tt ->
  exists f,
    written_file W geometry dst_dir href = Some f /\
    fs (final (main_body W geometry dst_dir href s))
    = <[out_path dst_dir href := f]> (fs s).
Proof.
  intros Hok.
  destruct (main_body_state_independent W geometry dst_dir href s (mkSt ∅ 0))
    as (_ & _ & _ & [(_ & _ & Hne)|(f & Hf1 & Hf2 & _)]); [done|].
  exists f. split; [|done].
  unfold written_file. rewrite Hf2. apply lookup_insert_eq.
Qed.

Lemma main_ok_iff W geometry dst_dir links s :
  outcome (main W geometry dst_dir links s) = Ok tt <->
  forall h, In h links -> outcome (main_body W geometry dst_dir h s) = Ok tt.
Proof.
  revert s. induction links as [|href rest IH]; intros s; [done|].
  split.
  - intros (Hbody & Hrest & _)%main_ok_cons h [<-|Hin]; [done|].
    destruct (main_body_state_independent W geometry dst_dir h s
                (final (main_body W geometry dst_dir href s))) as (-> & _).
    by apply IH.
  - intros Hall. rewrite main_cons.
    pose proof (Hall href (or_introl eq_refl)) as Hbody.
    destruct (main_body W geometry dst_dir href s) as [[[[]| |e] s1] ev1] eqn:Hb;
      try done.
    cbn [outcome fst]. apply IH. intros h Hin.
    destruct (main_body_state_independent W geometry dst_dir h s1 s) as (-> & _).
    apply Hall. by right.
Qed.

Lemma main_ok_lookup W geometry dst_dir links s h :
  outcome (main W geometry dst_dir links s) = Ok tt ->
  NoDup (destinations dst_dir links) ->
  In h links ->
  fs (final (main W geometry dst_dir links s)) !! out_path dst_dir h
  = written_file W geometry dst_dir h.
Proof.
  revert s. induction links as [|href rest IH]; intros s Hok Hnd Hin; [done|].
  apply main_ok_cons in Hok as (Hbody & Hrest & Hfin). rewrite Hfin.
  simpl in Hnd. apply NoDup_cons in Hnd as [Hnotin Hnd].
  destruct Hin as [->|Hin]; [|by apply IH].
  rewrite main_frame.
  - destruct (main_body_ok_written W geometry dst_dir h s Hbody) as (f & -> & ->).
    apply lookup_insert_eq.
  - intros Hin. apply Hnotin. by apply list_elem_of_In.
Qed.

(** X9.  When no two links have the same destination, the order of the
    links does not matter to a run that completes: run over any
    rearrangement of the list, it completes as well and ends in the same
    state, with the same files on the disk. *)
Theorem X9_order_of_links_irrelevant W geometry dst_dir links links' s :
  Permutation links links' ->
  NoDup (destinations dst_dir links) ->
  outcome (main W geometry dst_dir links s) = Ok tt ->
  outcome (main W geometry dst_dir links' s) = Ok tt /\
  final (main W geometry dst_dir links' s) = final (main W geometry dst_dir links s).
Proof.
  intros Hperm Hnd Hok.
  assert (Hok' : outcome (main W geometry dst_dir links' s) = Ok tt).
  { apply main_ok_iff. intros h Hin.
    apply (proj1 (main_ok_iff W geometry dst_dir links s) Hok).
    by apply (Permutation_in _ (Permutation_sym Hperm)). }
  split; [exact Hok'|].
  assert (Hnd' : NoDup (destinations dst_dir links')).
  { unfold destinations in *. by rewrite <- (Permutation_map _ Hperm). }
  destruct (main_transformers W geometry dst_dir links s) as (Hle & _ & _ & Hlen).
  destruct (main_transformers W geometry dst_dir links' s) as (Hle' & _ & _ & Hlen').
  specialize (Hlen Hok). specialize (Hlen' Hok').
  pose proof (Permutation_length Hperm) as Hpl.
  assert (Hfs : fs (final (main W geometry dst_dir links' s))
                = fs (final (main W geometry dst_dir links s))).
  { apply map_eq. intros q.
    destruct (decide (q ∈ destinations dst_dir links)) as [Hq|Hq].
    - apply list_elem_of_In, in_map_iff in Hq as (h & <- & Hin).
      rewrite (main_ok_lookup _ _ _ links) by done.
      apply main_ok_lookup; [done | done |].
      by apply (Permutation_in _ Hperm).
    - rewrite !main_frame; [done | |].
      + intros Hin. apply Hq. by apply list_elem_of_In.
      + intros Hin. apply Hq, list_elem_of_In.
        unfold destinations in *.
        by apply (Permutation_in _ (Permutation_sym (Permutation_map _ Hperm))). }
  destruct (final (main W geometry dst_dir links' s)) as [fs' n'].
  destruct (final (main W geometry dst_dir links s)) as [fs0 n0].
  simpl in *. f_equal; [done | lia].
Qed.

(** ** A geometry without coordinates *)

(** X10.  Line 65 is the only place where the geometry is looked at, and it
    comes after the asset is opened.  With a geometry that has no bounding
    box, a run over no link completes without any sign of it; a run over
    links opens the first asset and only then raises, or raises the error
    of the open when that fails.  In every case no transformer is built,
    nothing is read and the disk is not touched. *)
Theorem X10_geometry_checked_after_first_open W geometry dst_dir links s :
  bounds_of geometry = None ->
  let r := main W geometry dst_dir links s in
  r = match links with
      | [] => (Ok tt, s, [])
      | h :: _ =>
          match w_remote W h with
          | Some _ => (Raised InvalidGeometryError, s, [EvOpen h; EvBounds])
          | None => (Raised RemoteReadError, s, [EvOpen h])
          end
      end.
Proof.
  intros Hb r. subst r. destruct links as [|h rest]; [done|].
  rewrite main_cons.
  destruct (w_remote W h) as [ds|] eqn:Hopen.
  - by rewrite (main_body_bounds_fails W geometry dst_dir h ds Hopen s Hb).
  - by rewrite (main_body_open_fails W geometry dst_dir h s Hopen).
Qed.

(** ** The geometry of the file *)

(** X11.  Line 45 succeeds exactly on a dict whose "features" is a list
    that starts with a dict that has a "geometry", and it gives that member:
    the features after the first and every other member are ignored.  A
    dict without "features", or a first feature without "geometry", raises
    KeyError; an empty list of features raises IndexError; a top-level value
    that is not a dict raises TypeError. *)
Theorem X11_geometry_of_first_feature file_content :
  (forall g,
     select_geometry file_content = inr g <->
     exists members fmembers rest,
       file_content = JObj members /\
       members !! "features" = Some (JArr (JObj fmembers :: rest)) /\
       fmembers !! "geometry" = Some g) /\
  (forall members, file_content = JObj members ->
     members !! "features" = None ->
     select_geometry file_content = inl PyKeyError) /\
  (forall members, file_content = JObj members ->
     members !! "features" = Some (JArr []) ->
     select_geometry file_content = inl PyIndexError) /\
  (forall members fmembers rest, file_content = JObj members ->
     members !! "features" = Some (JArr (JObj fmembers :: rest)) ->
     fmembers !! "geometry" = None ->
     select_geometry file_content = inl PyKeyError) /\
  ((forall members, file_content <> JObj members) ->
     select_geometry file_content = inl PyTypeError).
Proof.
  split_and!.
  - intros g. split.
    + unfold select_geometry, getitem_str, getitem_0.
      destruct file_content as [| | | | |members]; try done.
      destruct (members !! "features") as [features|] eqn:Hf; [|done].
      destruct features as [| | |str|[|first rest]|]; try done.
      { by destruct str. }
      destruct first as [| | | | |fmembers]; try done.
      destruct (fmembers !! "geometry") as [g'|] eqn:Hg; [|done].
      intros [= <-]. by exists members, fmembers, rest.
    + intros (members & fmembers & rest & -> & Hf & Hg).
      unfold select_geometry. simpl. rewrite Hf. simpl. by rewrite Hg.
  - intros members -> Hf. unfold select_geometry. simpl. by rewrite Hf.
  - intros members -> Hf. unfold select_geometry. simpl. by rewrite Hf.
  - intros members fmembers rest -> Hf Hg.
    unfold select_geometry. simpl. rewrite Hf. simpl. by rewrite Hg.
  - intros Hno. destruct file_content; try done. by destruct (Hno members).
Qed.

(** ** The selection of the links *)

Lemma collect_links_app items1 items2 bands links :
  collect_links (items1 ++ items2) bands links
  = match collect_links items1 bands links with
    | inl e => inl e
    | inr links' => collect_links items2 bands links'
    end.
Proof.
  revert links. induction items1 as [|item items1 IH]; intros links; [done|].
  simpl. destruct bands as [bs|].
  - destruct (negb (forallb (in_keys item) bs)); [apply IH|].
    destruct (append_hrefs item bs links); [done | apply IH].
  - by destruct items2.
Qed.

(** X12.  An item that lacks one of the requested bands is skipped as a
    whole and without any error, whatever else it holds: the links, or the
    error, are those of the list without that item.  None of the bands it
    does have gives a link. *)
Theorem X12_incomplete_item_skipped items1 item items2 bs links :
  has_all_bands bs item = false ->
  collect_links (items1 ++ item :: items2) (Some bs) links
  = collect_links (items1 ++ items2) (Some bs) links.
Proof.
  intros Hmiss. rewrite !collect_links_app.
  destruct (collect_links items1 (Some bs) links) as [e|links']; [done|].
  simpl. unfold has_all_bands in Hmiss. by rewrite Hmiss.
Qed.

Lemma append_hrefs_ok item bs links :
  (forall band, In band bs -> is_Some (href_of item band)) ->
  append_hrefs item bs links = inr (links ++ item_hrefs bs item).
Proof.
  revert links. induction bs as [|band rest IH]; intros links Hall.
  { simpl. by rewrite app_nil_r. }
  destruct (Hall band (or_introl eq_refl)) as [href Hhref].
  unfold item_hrefs. simpl. rewrite Hhref. unfold href_of in Hhref.
  destruct (item !! band) as [[| | | | |asset]|]; try done.
  simpl. rewrite Hhref. rewrite IH by (intros b Hb; apply Hall; by right).
  by rewrite <- app_assoc.
Qed.

Lemma length_item_hrefs item bs :
  (forall band, In band bs -> is_Some (href_of item band)) ->
  length (item_hrefs bs item) = length bs.
Proof.
  induction bs as [|band rest IH]; intros Hall; [done|].
  destruct (Hall band (or_introl eq_refl)) as [href Hhref].
  assert (Hcons : item_hrefs (band :: rest) item = href :: item_hrefs rest item).
  { unfold item_hrefs. simpl. by rewrite Hhref. }
  rewrite Hcons. simpl.
  by rewrite IH by (intros b Hb; apply Hall; by right).
Qed.

(** X13.  When every requested asset of every item that has all the bands
    is a dict with an "href", the selection succeeds and the links are, item
    after item in the order of the items, the hrefs of the requested bands
    in the order of the bands, for the items that have all of them: as many
    links as bands for each such item, and none for the others. *)
Theorem X13_links_of_complete_items items bs :
  (forall item band, In item items -> has_all_bands bs item = true ->
     In band bs -> is_Some (href_of item band)) ->
  let complete := filter (fun item => has_all_bands bs item = true) items in
  collect_links items (Some bs) []
    = inr (concat (map (item_hrefs bs) complete)) /\
  length (concat (map (item_hrefs bs) complete))
    = (length complete * length bs)%nat.
Proof.
  intros Hall complete. subst complete.
  assert (Hgen : forall links,
    collect_links items (Some bs) links
    = inr (links ++ concat (map (item_hrefs bs)
             (filter (fun item => has_all_bands bs item = true) items)))).
  { induction items as [|item rest IH]; intros links.
    { simpl. by rewrite app_nil_r. }
    simpl. rewrite filter_cons. fold (has_all_bands bs item).
    destruct (has_all_bands bs item) eqn:Hc; simpl.
    - rewrite append_hrefs_ok by (intros; apply Hall; simpl; auto).
      rewrite IH by (intros; apply Hall; simpl; auto).
      by rewrite <- app_assoc.
    - by rewrite IH by (intros; apply Hall; simpl; auto). }
  split; [apply Hgen|]. clear Hgen.
  induction items as [|item rest IH]; [done|].
  rewrite filter_cons. case_decide as Hc.
  - simpl. rewrite length_app, IH by (intros; apply Hall; simpl; auto).
    rewrite length_item_hrefs by (intros; apply Hall; simpl; auto). lia.
  - apply IH. intros; apply Hall; simpl; auto.
Qed.

Lemma append_hrefs_error item bs links e :
  forallb (in_keys item) bs = true ->
  append_hrefs item bs links = inl e ->
  exists band asset,
    In band bs /\ item !! band = Some asset /\ getitem_str asset "href" = inl e.
Proof.
  revert links. induction bs as [|band rest IH]; intros links Hkeys Herr; [done|].
  simpl in Hkeys. apply andb_true_iff in Hkeys as [Hk Hkeys].
  unfold in_keys in Hk. simpl in Herr.
  destruct (item !! band) as [asset|] eqn:Hitem; [|done].
  destruct (getitem_str asset "href") as [e'|href] eqn:Hhref.
  - simplify_eq. exists band, asset. split_and!; simpl; auto.
  - destruct (IH _ Hkeys Herr) as (b & a & Hin & Hb & Ha).
    exists b, a. split_and!; simpl; auto.
Qed.

(** X14.  The selection raises in two ways only.  Without the bands option
    ([None]) it raises TypeError as soon as there is one item, and gives no
    link when there is none.  With bands, [item[band]] itself never raises,
    line 58 having checked the key: an error is the error of the ["href"]
    subscript on a requested asset of an item that has all the bands, a
    KeyError when the asset is a dict without "href" and a TypeError when it
    is not a dict. *)
Theorem X14_selection_errors items bands links e :
  collect_links items bands links = inl e ->
  (bands = None /\ items <> [] /\ e = PyTypeError) \/
  (exists bs item band asset,
     bands = Some bs /\ In item items /\ has_all_bands bs item = true /\
     In band bs /\ item !! band = Some asset /\
     getitem_str asset "href" = inl e /\
     (e = PyKeyError /\ (exists members, asset = JObj members) \/
      e = PyTypeError /\ (forall members, asset <> JObj members))).
Proof.
  destruct bands as [bs|].
  2: { destruct items; [done|]. simpl. intros [= <-]. by left. }
  intros Herr. right. revert links Herr.
  induction items as [|item rest IH]; intros links Herr; [done|].
  simpl in Herr.
  destruct (forallb (in_keys item) bs) eqn:Hkeys; simpl in Herr.
  - destruct (append_hrefs item bs links) as [e'|links'] eqn:Happ.
    + simplify_eq.
      destruct (append_hrefs_error _ _ _ _ Hkeys Happ) as (band & asset & Hin & Hb & Ha).
      exists bs, item, band, asset. split_and!; simpl; auto.
      unfold getitem_str in Ha.
      destruct asset as [| | | | |members]; simplify_eq; try (right; by split).
      destruct (members !! "href"); simplify_eq. left. split; [done|]. by eexists.
    + destruct (IH _ Herr) as (bs' & it & band & asset & Hbs & Hin & Hrest).
      simplify_eq. exists bs', it, band, asset. split_and!; simpl; tauto.
  - destruct (IH _ Herr) as (bs' & it & band & asset & Hbs & Hin & Hrest).
    simplify_eq. exists bs', it, band, asset. split_and!; simpl; tauto.
Qed.

Lemma append_hrefs_member item bs links links' x :
  append_hrefs item bs links = inr links' ->
  In x links' ->
  In x links \/ exists band, In band bs /\ href_of item band = Some x.
Proof.
  revert links. induction bs as [|band rest IH]; intros links Happ Hin.
  { simpl in Happ. simplify_eq. by left. }
  simpl in Happ.
  destruct (item !! band) as [asset|] eqn:Hitem; [|done].
  destruct (getitem_str asset "href") as [e|href] eqn:Hhref; [done|].
  destruct (IH _ Happ Hin) as [Hl|(b & Hb & Hx)].
  - apply in_app_iff in Hl as [Hl|[<-|[]]]; [by left|].
    right. exists band. split; [by left|].
    unfold href_of. rewrite Hitem. unfold getitem_str in Hhref.
    destruct asset as [| | | | |members]; try done.
    by destruct (members !! "href"); simplify_eq.
  - right. exists b. split; [by right | done].
Qed.

Lemma collect_links_member items bs links links' x :
  collect_links items (Some bs) links = inr links' ->
  In x links' ->
  In x links \/
  exists item band,
    In item items /\ has_all_bands bs item = true /\ In band bs /\
    href_of item band = Some x.
Proof.
  revert links. induction items as [|item rest IH]; intros links Hc Hin.
  { simpl in Hc. simplify_eq. by left. }
  simpl in Hc.
  destruct (forallb (in_keys item) bs) eqn:Hkeys; simpl in Hc.
  - destruct (append_hrefs item bs links) as [e|links1] eqn:Happ; [done|].
    destruct (IH _ Hc Hin) as [Hl|(it & b & Hit & Hrest)].
    + destruct (append_hrefs_member _ _ _ _ _ Happ Hl) as [?|(b & Hb & Hx)];
        [by left|].
      right. exists item, b. split_and!; simpl; auto.
    + right. exists it, b. split_and!; simpl; tauto.
  - destruct (IH _ Hc Hin) as [?|(it & b & Hit & Hrest)]; [by left|].
    right. exists it, b. split_and!; simpl; tauto.
Qed.

Lemma main_open_in_links W geometry dst_dir links s h :
  In (EvOpen h) (events (main W geometry dst_dir links s)) -> In h links.
Proof.
  revert s. induction links as [|href rest IH]; intros s; [done|].
  rewrite main_cons.
  pose proof (main_body_opens W geometry dst_dir href s) as Hopen.
  assert (Hhere : In (EvOpen h) (events (main_body W geometry dst_dir href s)) ->
                  h = href).
  { intros Hin.
    assert (He : EvOpen h ∈ filter (fun e => is_open e = true)
                   (events (main_body W geometry dst_dir href s))).
    { apply list_elem_of_filter. split; [done | by apply list_elem_of_In]. }
    rewrite Hopen in He. apply list_elem_of_singleton in He. by simplify_eq. }
  destruct (main_body W geometry dst_dir href s) as [[[[]| |e] s1] ev1];
    cbn [events snd] in *.
  - intros [Hin|Hin]%in_app_iff; [left; by rewrite Hhere | right; by eapply IH].
  - intros Hin. left. by rewrite Hhere.
  - intros Hin. left. by rewrite Hhere.
Qed.

(** X15.  Lines 56-61 followed by the loop: when the selection gives the
    links [hrefs], every asset that the run opens is the href of a
    requested band of an item that has all the requested bands.  No asset
    of an incomplete item and no asset of another band is ever opened. *)
Theorem X15_only_selected_assets_opened W geometry dst_dir items bs hrefs s h :
  collect_links items (Some bs) [] = inr (map JStr hrefs) ->
  In (EvOpen h) (events (main W geometry dst_dir hrefs s)) ->
  exists item band,
    In item items /\ has_all_bands bs item = true /\ In band bs /\
    href_of item band = Some (JStr h).
Proof.
  intros Hc Hopen. apply main_open_in_links in Hopen.
  destruct (collect_links_member items bs [] _ (JStr h) Hc) as [[]|Hex]; [|done].
  apply in_map_iff. by exists h.
Qed.

(** ** The origin of the output *)




(** ** The further properties at concrete inputs *)

Lemma X1_witness :
  let r := main_body ex_world ex_geometry "out" ex_href ex_state in
  w_remote ex_world ex_href = Some ex_asset /\
  outcome r = Ok tt /\
  exists file,
    fs (final r) !! "out/scene_band4.tif" = Some file /\
    rf_profile file !! "crs" = Some (VStr "EPSG:32632") /\
    rf_profile file !! "dtype" = Some (VStr "uint16").
Proof.
  intros r.
  assert (Hopen : w_remote ex_world ex_href = Some ex_asset) by reflexivity.
  assert (Hok : outcome r = Ok tt) by (vm_compute; reflexivity).
  split; [exact Hopen|]. split; [exact Hok|].
  destruct (X1_profile_keys_preserved ex_world ex_geometry "out" ex_href
              ex_asset ex_state Hopen Hok) as (file & Hf & Hkeys & Hcrs).
  exists file. split; [exact Hf|]. split; [exact Hcrs|].
  rewrite Hkeys by discriminate. vm_compute. reflexivity.
Defined.

Lemma X2_witness :
  let r := main_body ex_world ex_geometry "out" ex_href ex_state in
  outcome r = Ok tt /\
  exists px subset,
    ds_band1 ex_asset = Some px /\
    band_at (fs (final r)) "out/scene_band4.tif" = Some subset /\
    (sb_data subset !! 2%nat) ≫= (fun row => row !! 4%nat)
    = Some (px (20 + 2) (10 + 4)).
Proof.
  intros r.
  assert (Hok : outcome r = Ok tt) by (vm_compute; reflexivity).
  split; [exact Hok|].
  destruct (X2_samples_are_source_samples ex_world ex_geometry "out" ex_href
              ex_asset 10 45 10.05 45.03 ex_proj 20 10 23 15 ex_state
              eq_refl eq_refl eq_refl eq_refl eq_refl Hok)
    as (px & subset & Hpx & Hb & Hs).
  exists px, subset. split; [exact Hpx|]. split; [exact Hb|].
  assert (Hsub : subset = read_block (fun r c => r * 100 + c) 100 100
                            (from_slices (20, 23) (10, 15))).
  { assert (Hb' : band_at (fs (final r)) "out/scene_band4.tif"
                  = Some (read_block (fun r c => r * 100 + c) 100 100
                            (from_slices (20, 23) (10, 15))))
      by (vm_compute; reflexivity).
    assert (Heq : Some subset
                  = Some (read_block (fun r c => r * 100 + c) 100 100
                            (from_slices (20, 23) (10, 15))))
      by (etransitivity; [symmetry; exact Hb | exact Hb']).
    by injection Heq. }
  apply (Hs 2%nat 4%nat); rewrite Hsub; vm_compute; reflexivity.
Defined.



Lemma X8_witness :
  let ev := events (main ex_world ex_geometry "out" [ex_href] ex_state) in
  In (EvWrite "out/scene_band4.tif" 1) ev /\
  In "out/scene_band4.tif" (destinations "out" [ex_href]).
Proof.
  intros ev.
  assert (Hin : In (EvWrite "out/scene_band4.tif" 1) ev).
  { subst ev. vm_compute. do 10 right. left. reflexivity. }
  split; [exact Hin|].
  exact (proj1 (X8_only_band_one ex_world ex_geometry "out" [ex_href] ex_state
                  (EvWrite "out/scene_band4.tif" 1) Hin)).
Defined.

Lemma X9_witness :
  let links := ["https://h/a/red.tif"; "https://h/a/nir.tif"] in
  let links' := ["https://h/a/nir.tif"; "https://h/a/red.tif"] in
  Permutation links links' /\
  NoDup (destinations "out" links) /\
  outcome (main ex_world_bands ex_geometry "out" links ex_state) = Ok tt /\
  outcome (main ex_world_bands ex_geometry "out" links' ex_state) = Ok tt /\
  final (main ex_world_bands ex_geometry "out" links' ex_state)
  = final (main ex_world_bands ex_geometry "out" links ex_state).
Proof.
  intros links links'.
  assert (Hperm : Permutation links links') by apply perm_swap.
  assert (Hnd : NoDup (destinations "out" links)).
  { unfold destinations, links. simpl.
    apply NoDup_cons. split; [|apply NoDup_singleton].
    intros Hin. apply list_elem_of_singleton in Hin. discriminate Hin. }
  assert (Hok : outcome (main ex_world_bands ex_geometry "out" links ex_state) = Ok tt)
    by (vm_compute; reflexivity).
  split; [exact Hperm|]. split; [exact Hnd|]. split; [exact Hok|].
  exact (X9_order_of_links_irrelevant ex_world_bands ex_geometry "out"
           links links' ex_state Hperm Hnd Hok).
Defined.

Lemma X10_witness :
  bounds_of (LineString []) = None /\
  main ex_world (LineString []) "out" [ex_href; ex_href_b] ex_state
  = (Raised InvalidGeometryError, ex_state, [EvOpen ex_href; EvBounds]).
Proof.
  assert (Hb : bounds_of (LineString []) = None) by reflexivity.
  split; [exact Hb|].
  exact (X10_geometry_checked_after_first_open ex_world (LineString []) "out"
           [ex_href; ex_href_b] ex_state Hb).
Defined.

Lemma X12_witness :
  has_all_bands ["red"; "nir"] ex_item_red_only = false /\
  collect_links [ex_item; ex_item_red_only] (Some ["red"; "nir"]) []
  = collect_links [ex_item] (Some ["red"; "nir"]) [].
Proof.
  assert (Hmiss : has_all_bands ["red"; "nir"] ex_item_red_only = false)
    by (vm_compute; reflexivity).
  split; [exact Hmiss|].
  exact (X12_incomplete_item_skipped [ex_item] ex_item_red_only []
           ["red"; "nir"] [] Hmiss).
Defined.

Lemma X13_witness :
  collect_links [ex_item; ex_item_red_only] (Some ["red"; "nir"]) []
  = inr (concat (map (item_hrefs ["red"; "nir"])
           (filter (fun item => has_all_bands ["red"; "nir"] item = true)
                   [ex_item; ex_item_red_only]))) /\
  concat (map (item_hrefs ["red"; "nir"])
           (filter (fun item => has_all_bands ["red"; "nir"] item = true)
                   [ex_item; ex_item_red_only]))
  = [JStr "https://h/a/red.tif"; JStr "https://h/a/nir.tif"].
Proof.
  split; [|vm_compute; reflexivity].
  apply (X13_links_of_complete_items [ex_item; ex_item_red_only] ["red"; "nir"]).
  intros item band [<-|[<-|[]]] Hc.
  - intros [<-|[<-|[]]]; vm_compute; eexists; reflexivity.
  - vm_compute in Hc. discriminate Hc.
Defined.

Lemma X14_witness :
  collect_links [ex_item; ex_item_no_href] (Some ["red"]) [] = inl PyKeyError /\
  exists item asset,
    In item [ex_item; ex_item_no_href] /\
    item !! "red" = Some asset /\
    getitem_str asset "href" = inl PyKeyError.
Proof.
  assert (Herr : collect_links [ex_item; ex_item_no_href] (Some ["red"]) []
                 = inl PyKeyError) by (vm_compute; reflexivity).
  split; [exact Herr|].
  destruct (X14_selection_errors _ _ _ _ Herr)
    as [(Hn & _)|(bs & item & band & asset & Hbs & Hin & _ & Hband & Hitem & Hhref & _)];
    [discriminate Hn|].
  injection Hbs as <-. destruct Hband as [<-|[]].
  exists item, asset. split_and!; assumption.
Defined.

Lemma X15_witness :
  let hrefs := ["https://h/a/red.tif"; "https://h/a/nir.tif"] in
  collect_links [ex_item; ex_item_red_only] (Some ["red"; "nir"]) []
    = inr (map JStr hrefs) /\
  In (EvOpen "https://h/a/nir.tif")
     (events (main ex_world_bands ex_geometry "out" hrefs ex_state)) /\
  exists item band,
    In item [ex_item; ex_item_red_only] /\
    has_all_bands ["red"; "nir"] item = true /\
    href_of item band = Some (JStr "https://h/a/nir.tif").
Proof.
  intros hrefs.
  assert (Hc : collect_links [ex_item; ex_item_red_only] (Some ["red"; "nir"]) []
               = inr (map JStr hrefs)) by (vm_compute; reflexivity).
  assert (Hin : In (EvOpen "https://h/a/nir.tif")
                  (events (main ex_world_bands ex_geometry "out" hrefs ex_state))).
  { vm_compute. do 11 right. left. reflexivity. }
  split; [exact Hc|]. split; [exact Hin|].
  destruct (X15_only_selected_assets_opened ex_world_bands ex_geometry "out"
              [ex_item; ex_item_red_only] ["red"; "nir"] hrefs ex_state
              "https://h/a/nir.tif" Hc Hin)
    as (item & band & Hitem & Hall & _ & Hhref).
  exists item, band. split_and!; assumption.
Defined.

